(** * motorSnatcher: the specification extraction and normalisation engine

    A shallow embedding of [scrape_product.py] (the motor engine) and
    [scrape_battery.py] (the battery engine), and the properties of the
    field resolver, the merge policy and the normalisers.

    Conventions of the embedding.
    - A Python [str] is the [string] of the bytes of its UTF-8 encoding (a
      multiplication sign is two bytes).  Equality, [in], [split] and the
      order of [sorted] are the same on the bytes as on the code points, and
      [len] counts the code points ([Str.len]).  The character classes of
      [str.lower], [str.strip], [\s] and [\d] are Python's on ASCII text
      ([Str.is_ascii]), where a byte is a character.  Outside ASCII Python
      also lowers letters, takes the no-break space and other separators
      for white space and the digits of other scripts for digits; the model
      leaves every byte above 127 as it is.  The properties of the two
      cleaners and of the list harvester that rest on these classes are
      therefore stated for ASCII text.
    - A Python [dict] is an association list in insertion order with
      pairwise distinct keys ([wf_dict]): the resolvers iterate over
      [items()], so the order decides which entry is found first.
    - A Python [float] is a binary64 number, [spec_float] with precision 53
      and maximal exponent 1024; [float(s)], [*], [/], [<], [int(x)] and
      [str(x)] are the correctly rounded operations on it.
    - A call that may raise returns a [result].
    - The HTML tree and the harvesters that read it belong to the parsing
      library; a parsed page enters the engines as the values the
      [extract_*] functions return for it. *)

From Stdlib Require Import List Bool Ascii String ZArith Lia.
From Stdlib Require Import DecimalString.
From Stdlib Require Import SpecFloat.
Import ListNotations.

Local Open Scope string_scope.
Local Open Scope bool_scope.

(** ** Characters and strings *)

Module Str.

Definition code (c : ascii) : nat := nat_of_ascii c.

Definition between (lo hi : nat) (c : ascii) : bool :=
  Nat.leb lo (code c) && Nat.leb (code c) hi.

(** [\d] on ASCII text: the ten digits.  (On other text [\d] is every
    decimal digit of Unicode.) *)
Definition is_digit (c : ascii) : bool := between 48 57 c.

(** [str.isspace], which is also [\s], on ASCII text: tab, line feed,
    vertical tab, form feed, carriage return, the four separators 28..31 and
    the space.  (On other text also U+0085, U+00A0 and the separators of
    Unicode.) *)
Definition is_space (c : ascii) : bool :=
  between 9 13 c || between 28 32 c.

Definition is_upper (c : ascii) : bool := between 65 90 c.

Definition lower_char (c : ascii) : ascii :=
  if is_upper c then ascii_of_nat (code c + 32) else c.

(** The text is ASCII: every byte is a character below 128. *)
Fixpoint is_ascii (s : string) : bool :=
  match s with
  | EmptyString => true
  | String c t => Nat.ltb (code c) 128 && is_ascii t
  end.

(** A byte that continues a character of more than one byte in UTF-8. *)
Definition is_continuation (c : ascii) : bool := between 128 191 c.

(** [len(s)]: the number of code points, which is the number of bytes that
    start a character. *)
Fixpoint len (s : string) : nat :=
  match s with
  | EmptyString => 0
  | String c t => if is_continuation c then len t else S (len t)
  end.

(** [s.lower()] on ASCII text: the letters A..Z are lowered.  (On other text
    Python lowers the cased letters of Unicode too.) *)
Fixpoint lower (s : string) : string :=
  match s with
  | EmptyString => EmptyString
  | String c t => String (lower_char c) (lower t)
  end.

(** The truth value of a string: [if s:] *)
Definition truthy (s : string) : bool :=
  match s with
  | EmptyString => false
  | String _ _ => true
  end.

Fixpoint startswith (p s : string) : bool :=
  match p, s with
  | EmptyString, _ => true
  | String _ _, EmptyString => false
  | String a p', String b s' => Ascii.eqb a b && startswith p' s'
  end.

(** [sub in s] *)
Fixpoint contains (sub s : string) : bool :=
  startswith sub s ||
  match s with
  | EmptyString => false
  | String _ t => contains sub t
  end.

Fixpoint lstrip (s : string) : string :=
  match s with
  | EmptyString => EmptyString
  | String c t => if is_space c then lstrip t else s
  end.

Fixpoint rstrip (s : string) : string :=
  match s with
  | EmptyString => EmptyString
  | String c t =>
      match rstrip t with
      | EmptyString => if is_space c then EmptyString else String c EmptyString
      | t' => String c t'
      end
  end.

(** [s.strip()] *)
Definition strip (s : string) : string := rstrip (lstrip s).

(** [s.rstrip("/")] *)
Fixpoint rstrip_slash (s : string) : string :=
  match s with
  | EmptyString => EmptyString
  | String c t =>
      match rstrip_slash t with
      | EmptyString => if Ascii.eqb c "/" then EmptyString else String c EmptyString
      | t' => String c t'
      end
  end.

(** The longest prefix of characters in a class, and the rest. *)
Fixpoint span (p : ascii -> bool) (s : string) : string * string :=
  match s with
  | EmptyString => (EmptyString, EmptyString)
  | String c t =>
      if p c then let '(a, b) := span p t in (String c a, b)
      else (EmptyString, s)
  end.

Fixpoint forallb (p : ascii -> bool) (s : string) : bool :=
  match s with
  | EmptyString => true
  | String c t => p c && forallb p t
  end.

Fixpoint existsb (p : ascii -> bool) (s : string) : bool :=
  match s with
  | EmptyString => false
  | String c t => p c || existsb p t
  end.

End Str.

(** ** Regular expressions of the normalisers *)

Module Re.

(** [[<>~]] *)
Definition is_cmp (c : ascii) : bool :=
  Ascii.eqb c "<" || Ascii.eqb c ">" || Ascii.eqb c "~".

(** [[\d.]] *)
Definition is_numdot (c : ascii) : bool :=
  Str.is_digit c || Ascii.eqb c ".".

(** [\s*([\d.]+)] anchored at the start of [s]: the group, if it matches.
    Both repetitions are greedy and their classes are disjoint, so giving
    back a character never turns a failure into a match. *)
Definition match_tail (s : string) : option string :=
  match Str.span is_numdot (Str.lstrip s) with
  | (EmptyString, _) => None
  | (run, _) => Some run
  end.

(** [[<>~]?\s*([\d.]+)] anchored at the start of [s]: the optional prefix is
    tried first, and skipped when the rest fails with it. *)
Definition match_here (s : string) : option string :=
  match s with
  | String c t =>
      if is_cmp c then
        match match_tail t with
        | Some g => Some g
        | None => match_tail s
        end
      else match_tail s
  | EmptyString => match_tail s
  end.

(** [re.search(r"[<>~]?\s*([\d.]+)", s)]: group 1 of the leftmost match. *)
Fixpoint search_number (s : string) : option string :=
  match match_here s with
  | Some g => Some g
  | None =>
      match s with
      | EmptyString => None
      | String _ t => search_number t
      end
  end.

(** [re.sub(r'\s+', ' ', s)]; [in_run] says that the previous character was
    white space, already replaced. *)
Fixpoint sub_spaces (in_run : bool) (s : string) : string :=
  match s with
  | EmptyString => EmptyString
  | String c t =>
      if Str.is_space c then
        if in_run then sub_spaces true t else String " " (sub_spaces true t)
      else String c (sub_spaces false t)
  end.

End Re.

(** ** Exceptions *)

Inductive exn : Type :=
  | ValueError
  | OverflowError.

(** The outcome of a call that may raise. *)
Inductive result (A : Type) : Type :=
  | Ok (a : A)
  | Raise (e : exn).
Arguments Ok {A} a.
Arguments Raise {A} e.

(** ** Binary64 numbers: Python's [float] *)

Module Float.
Local Open Scope Z_scope.

Definition prec : Z := 53.
Definition emax : Z := 1024.

Definition float : Type := spec_float.

Definition nan : float := S754_nan.
Definition inf (neg : bool) : float := S754_infinity neg.

(** The binary64 number nearest to [p / q], ties to even, with the sign
    [neg]; for [0 <= p] and [0 < q]. *)
Definition of_ratio (neg : bool) (p q : Z) : float :=
  match p with
  | Zpos _ =>
      let '(m, e, l) := SFdiv_core_binary prec emax p 0 q 0 in
      binary_round_aux prec emax neg m e l
  | _ => S754_zero neg
  end.

Definition of_Z (z : Z) : float := of_ratio (z <? 0) (Z.abs z) 1.

Definition mul : float -> float -> float := SFmul prec emax.
Definition div : float -> float -> float := SFdiv prec emax.
Definition ltb : float -> float -> bool := SFltb.

(** The same binary64 value, bit for bit. *)
Definition same (x y : float) : bool :=
  match x, y with
  | S754_zero a, S754_zero b => Bool.eqb a b
  | S754_infinity a, S754_infinity b => Bool.eqb a b
  | S754_nan, S754_nan => true
  | S754_finite a m e, S754_finite b n f =>
      Bool.eqb a b && Pos.eqb m n && Z.eqb e f
  | _, _ => false
  end.

(** [p / q * 10 ** j] as a fraction. *)
Definition scale10 (p q j : Z) : Z * Z :=
  if 0 <=? j then (p * 10 ^ j, q) else (p, q * 10 ^ (- j)).

(** *** [float(s)] *)

Definition digit_value (c : ascii) : Z := Z.of_nat (nat_of_ascii c) - 48.

Fixpoint digits_value (acc : Z) (s : string) : Z :=
  match s with
  | EmptyString => acc
  | String c t => digits_value (10 * acc + digit_value c) t
  end.

(** An unsigned decimal literal [digits], [digits.], [.digits] or
    [digits.digits]: its integer and fractional digits. *)
Definition split_decimal (s : string) : option (string * string) :=
  let '(ip, rest) := Str.span Str.is_digit s in
  match rest with
  | EmptyString =>
      if Str.truthy ip then Some (ip, EmptyString) else None
  | String c t =>
      if Ascii.eqb c "." then
        let '(fp, rest') := Str.span Str.is_digit t in
        match rest' with
        | EmptyString =>
            if Str.truthy ip || Str.truthy fp then Some (ip, fp) else None
        | String _ _ => None
        end
      else None
  end.

Definition split_sign (s : string) : bool * string :=
  match s with
  | String c t =>
      if Ascii.eqb c "-" then (true, t)
      else if Ascii.eqb c "+" then (false, t)
      else (false, s)
  | EmptyString => (false, s)
  end.

(** [float(s)], [None] for [ValueError].  The literal is stripped, may carry
    a sign, and is a decimal number without exponent, or one of [inf],
    [infinity] and [nan] in any case.  (Literals with an exponent or with
    underscores between digits are not modelled: they mix a digit with
    another character, and the normalisers never pass such a text, see
    [clean_number_shape].) *)
Definition of_string (s : string) : option float :=
  let '(neg, body) := split_sign (Str.strip s) in
  let word := Str.lower body in
  if String.eqb word "inf" || String.eqb word "infinity" then Some (inf neg)
  else if String.eqb word "nan" then Some nan
  else
    match split_decimal body with
    | Some (ip, fp) =>
        Some (of_ratio neg (digits_value 0 (ip ++ fp))
                       (10 ^ Z.of_nat (String.length fp)))
    | None => None
    end.

(** *** [int(x)] *)

(** [int(x)]: truncation towards zero. *)
Definition to_int (x : float) : result Z :=
  match x with
  | S754_zero _ => Ok 0
  | S754_infinity _ => Raise OverflowError
  | S754_nan => Raise ValueError
  | S754_finite neg m e =>
      let a := if 0 <=? e then Z.shiftl (Zpos m) e else Z.shiftr (Zpos m) (- e) in
      Ok (if neg then - a else a)
  end.

(** [str(z)] for an integer. *)
Definition str_of_Z (z : Z) : string := NilZero.string_of_int (Z.to_int z).

(** *** [str(x)]: the shortest decimal that reads back as [x] *)

(** The number of decimal digits of a positive integer. *)
Definition nb_digits (z : Z) : Z :=
  match z with
  | Zpos p => Z.of_nat (Decimal.nb_digits (Pos.to_uint p))
  | _ => 1
  end.

(** The decimal point of [p / q > 0]: the [k] with
    [10 ** (k - 1) <= p / q < 10 ** k]. *)
Definition decpt (p q : Z) : Z :=
  let j := nb_digits p - nb_digits q in
  let '(a, b) := scale10 1 1 j in
  if q * a <=? p * b then j + 1 else j.

(** The decimal [c * 10 ** j] reads back as [x]. *)
Definition reads_back (x : float) (c j : Z) : bool :=
  let '(a, b) := scale10 c 1 j in
  same (of_ratio false a b) x.

(** The best decimal with [n] significant digits for [x = p / q > 0], whose
    decimal point is [k]: the integer [c] with [c * 10 ** (k - n)] reading back
    as [x] and nearest to it, if there is one. *)
Definition candidate (x : float) (p q k n : Z) : option Z :=
  let '(a, b) := scale10 p q (n - k) in
  let lo := a / b in
  let r := a mod b in
  let hi := lo + 1 in
  if r =? 0 then Some lo
  else
    match reads_back x lo (k - n), reads_back x hi (k - n) with
    | true, true =>
        match 2 * r ?= b with
        | Lt => Some lo
        | Gt => Some hi
        | Eq => Some (if Z.even lo then lo else hi)
        end
    | true, false => Some lo
    | false, true => Some hi
    | false, false => None
    end.

(** The shortest candidate, trying [n], [n + 1], ... ; seventeen digits always
    read back. *)
Fixpoint shortest (fuel : nat) (x : float) (p q k n : Z) : Z * Z :=
  match fuel with
  | O => (p / q, 0)
  | S fuel' =>
      match candidate x p q k n with
      | Some c => (c, k - n)
      | None => shortest fuel' x p q k (n + 1)
      end
  end.

Fixpoint strip_zeros (s : string) : string :=
  match s with
  | EmptyString => EmptyString
  | String c t =>
      match strip_zeros t with
      | EmptyString => if Ascii.eqb c "0" then EmptyString else String c EmptyString
      | t' => String c t'
      end
  end.

Fixpoint zeros (n : nat) : string :=
  match n with
  | O => EmptyString
  | S n' => String "0" (zeros n')
  end.

Fixpoint take (n : nat) (s : string) : string :=
  match n, s with
  | S n', String c t => String c (take n' t)
  | _, _ => EmptyString
  end.

Fixpoint drop (n : nat) (s : string) : string :=
  match n, s with
  | S n', String _ t => drop n' t
  | _, _ => s
  end.

(** The exponent of the scientific form: a sign and at least two digits. *)
Definition exponent_text (e : Z) : string :=
  let sign := if e <? 0 then "-" else "+" in
  let pad := if Z.abs e <? 10 then "0" else "" in
  String.append sign (String.append pad (str_of_Z (Z.abs e))).

(** The digits [ds] with the decimal point after the first [k] of them, as
    [repr] lays a float out: scientific below [1e-4] and from [1e16]. *)
Definition layout (ds : string) (k : Z) : string :=
  let len := Z.of_nat (String.length ds) in
  if (k <=? -4) || (16 <? k) then
    String.append (take 1 ds)
      (String.append (if 1 <? len then String.append "." (drop 1 ds) else "")
         (String.append "e" (exponent_text (k - 1))))
  else if k <=? 0 then
    String.append "0." (String.append (zeros (Z.to_nat (- k))) ds)
  else if len <=? k then
    String.append ds (String.append (zeros (Z.to_nat (k - len))) ".0")
  else
    String.append (take (Z.to_nat k) ds)
      (String.append "." (drop (Z.to_nat k) ds)).

(** [str(x)], which is [repr(x)]. *)
Definition to_string (x : float) : string :=
  match x with
  | S754_nan => "nan"
  | S754_infinity neg => if neg then "-inf" else "inf"
  | S754_zero neg => if neg then "-0.0" else "0.0"
  | S754_finite neg m e =>
      let '(p, q) := if 0 <=? e then (Z.shiftl (Zpos m) e, 1)
                     else (Zpos m, Z.shiftl 1 (- e)) in
      let k := decpt p q in
      let '(c, j) := shortest 17 (S754_finite false m e) p q k 1 in
      let ds := str_of_Z c in
      String.append (if neg then "-" else "")
        (layout (strip_zeros ds) (Z.of_nat (String.length ds) + j))
  end.

End Float.

(** ** Normalisers ([scrape_product.py]) *)

(** [clean_number]: "Extract numeric value from text." *)
Definition clean_number (text : string) : string :=
  if negb (Str.truthy text) then ""
  else
    let text := Str.strip text in
    match Re.search_number text with
    | Some g => g
    | None => text
    end.

(** [clean_value]: "Clean value by removing extra whitespace but keeping
    units." *)
Definition clean_value (text : string) : string :=
  if negb (Str.truthy text) then ""
  else Re.sub_spaces false (Str.strip text).


(** ** Dictionaries *)

(** A [dict] from raw keys to raw values, in insertion order. *)
Definition dict : Type := list (string * string).

(** Keys are pairwise distinct. *)
Definition wf_dict (d : dict) : Prop := NoDup (map fst d).

(** [d[k]], [None] for [KeyError] *)
Fixpoint dict_get (d : dict) (k : string) : option string :=
  match d with
  | [] => None
  | (k', v') :: r => if String.eqb k' k then Some v' else dict_get r k
  end.

(** [d[k] = v]: an existing key keeps its place and takes the new value, a
    new key goes to the end. *)
Fixpoint dict_set (d : dict) (k v : string) : dict :=
  match d with
  | [] => [(k, v)]
  | (k', v') :: r =>
      if String.eqb k' k then (k', v) :: r else (k', v') :: dict_set r k v
  end.

(** [d.update(e)], and [{**d, **e}] *)
Definition dict_update (d e : dict) : dict :=
  fold_left (fun acc kv => dict_set acc (fst kv) (snd kv)) e d.

(** A dict display [{k1: v1, ..., kn: vn}] *)
Definition dict_literal (items : list (string * string)) : dict :=
  dict_update [] items.

(** [for k, v in d.items(): if p(k, v): return ...]: the entry the loop
    returns from. *)
Definition first_item (p : string -> string -> bool) (d : dict)
  : option (string * string) :=
  find (fun kv => p (fst kv) (snd kv)) d.

(** [a or b] on strings *)
Definition str_or (a b : string) : string :=
  if Str.truthy a then a else b.

(** [clean_number(value) if clean else clean_value(value)] *)
Definition cleaned (clean : bool) (value : string) : string :=
  if clean then clean_number value else clean_value value.

(** What the harvesters return for a parsed page: [extract_product_name],
    [extract_stock_status], [extract_price], [extract_general_info] (the list
    source), [extract_specification_table] (the table source) and
    [extract_via_regex] (the regex source, motor engine only). *)
Record Page : Type := {
  product_name : string;
  stock_status : string;
  price : string;
  general_info : dict;
  spec_table : dict;
  regex_specs : dict
}.

(** ** The motor engine ([scrape_product.py]) *)

Module Motor.

Definition CSV_COLUMNS : list string :=
  [ "Product Name"; "URL"; "Stock Status"; "Price (INR)"; "Voltage (V)";
    "Power (W)"; "Rated Current (A)"; "No Load Current (A)";
    "Rated Torque (kg-cm)"; "Stall Torque (kg-cm)"; "RPM"; "Efficiency (%)";
    "Weight (kg)"; "Shipping Weight (kg)"; "Shipping Dimensions (cm)";
    "Shaft Diameter (mm)"; "Motor Type"; "Model No."; "Gearbox";
    "Dimensions"; "Cable Length (cm)" ].

(** "Merge all sources (spec_table takes priority, then general_info, then
    regex)": [{**regex_specs, **general_info, **spec_table}] *)
Definition merge (regex_specs general_info spec_table : dict) : dict :=
  dict_update (dict_update (dict_update [] regex_specs) general_info) spec_table.

(** The test of the first loop of [get_spec]. *)
Definition exact_hit (key_lower spec_key value : string) : bool :=
  String.eqb key_lower (Str.lower spec_key) && Str.truthy value.

(** The test of the second loop of [get_spec]. *)
Definition partial_hit (key_lower spec_key value : string) : bool :=
  (Str.contains key_lower (Str.lower spec_key)
   || Str.contains (Str.lower spec_key) key_lower)
  && Str.truthy value.

(** The entry [get_spec] returns from: for each key in turn the first exact
    hit, else, unless [exact], the first partial hit. *)
Fixpoint get_spec_item (all_specs : dict) (keys : list string) (exact : bool)
  : option (string * string) :=
  match keys with
  | [] => None
  | key :: keys' =>
      let key_lower := Str.lower key in
      match first_item (exact_hit key_lower) all_specs with
      | Some kv => Some kv
      | None =>
          if exact then get_spec_item all_specs keys' exact
          else
            match first_item (partial_hit key_lower) all_specs with
            | Some kv => Some kv
            | None => get_spec_item all_specs keys' exact
            end
      end
  end.

(** [get_spec] with its keys, [clean] and [exact] *)
Definition get_spec (all_specs : dict) (keys : list string) (clean exact : bool)
  : string :=
  match get_spec_item all_specs keys exact with
  | Some (_, value) => cleaned clean value
  | None => ""
  end.

Definition is_no_load_current_key (spec_key : string) : bool :=
  Str.contains "no" (Str.lower spec_key)
  && Str.contains "load" (Str.lower spec_key)
  && Str.contains "current" (Str.lower spec_key).

Definition says_milliamps (spec_key value : string) : bool :=
  Str.contains "ma" (Str.lower spec_key) || Str.contains "ma" (Str.lower value).

(** [str(float(num) / 1000)], [None] when [float(num)] raises [ValueError] *)
Definition per_thousand (num : string) : option string :=
  match Float.of_string num with
  | Some x => Some (Float.to_string (Float.div x (Float.of_Z 1000)))
  | None => None
  end.

(** [get_no_load_current]: "Get no-load current, handling mA vs A." *)
Fixpoint get_no_load_current (all_specs : dict) : string :=
  match all_specs with
  | [] => ""
  | (spec_key, value) :: rest =>
      if is_no_load_current_key spec_key then
        if says_milliamps spec_key value then
          let num := clean_number value in
          if Str.truthy num then
            match per_thousand num with
            | Some s => s
            | None => get_no_load_current rest
            end
          else get_no_load_current rest
        else clean_number value
      else get_no_load_current rest
  end.

(** [get_efficiency]: "Get efficiency, handling ratio vs percentage."  Only
    [ValueError] is caught. *)
Definition get_efficiency (all_specs : dict) : result string :=
  let val := get_spec all_specs ["efficiency"] true false in
  if Str.truthy val then
    match Float.of_string val with
    | Some num =>
        if Float.ltb num (Float.of_Z 1) then
          match Float.to_int (Float.mul num (Float.of_Z 100)) with
          | Ok z => Ok (Float.str_of_Z z)
          | Raise ValueError => Ok val
          | Raise e => Raise e
          end
        else Ok val
    | None => Ok val
    end
  else Ok "".

Definition is_weight_key (spec_key : string) : bool :=
  Str.contains "weight" (Str.lower spec_key)
  && negb (Str.contains "shipping" (Str.lower spec_key)).

(** The loop of [get_weight]; [None] when it ends without returning. *)
Fixpoint get_weight_loop (all_specs : dict) : option string :=
  match all_specs with
  | [] => None
  | (spec_key, value) :: rest =>
      if is_weight_key spec_key then
        if Str.contains "(kg)" (Str.lower spec_key)
           || Str.contains "kg" (Str.lower value)
        then Some (clean_number value)
        else if Str.contains "(g)" (Str.lower spec_key) then
          let num := clean_number value in
          if Str.truthy num then
            match per_thousand num with
            | Some s => Some s
            | None => get_weight_loop rest
            end
          else get_weight_loop rest
        else get_weight_loop rest
      else get_weight_loop rest
  end.

(** [get_weight]: "Get weight, handling grams vs kg." *)
Definition get_weight (all_specs : dict) : string :=
  match get_weight_loop all_specs with
  | Some s => s
  | None => get_spec all_specs ["weight (kg)"; "weight:"; "weight_kg"] true true
  end.

(** [scrape_product], from the parsed page on. *)
Definition scrape_product (url : string) (page : Page) : result dict :=
  let clean_url := Str.rstrip_slash url in
  let all_specs :=
    merge (regex_specs page) (general_info page) (spec_table page) in
  let get_spec := get_spec all_specs in
  match get_efficiency all_specs with
  | Raise e => Raise e
  | Ok efficiency =>
      Ok (dict_literal
        [ ("Product Name", product_name page);
          ("URL", clean_url);
          ("Stock Status", stock_status page);
          ("Price (INR)", price page);
          ("Voltage (V)",
            get_spec ["rated voltage"; "operating voltage"; "voltage"; "vdc"] true false);
          ("Power (W)",
            get_spec ["operating power"; "rated power"; "power"] true false);
          ("Rated Current (A)",
            get_spec ["rated current (a)"; "rated current"; "rate current"] true false);
          ("No Load Current (A)", get_no_load_current all_specs);
          ("Rated Torque (kg-cm)", get_spec ["rated torque"; "rate torque"] true false);
          ("Stall Torque (kg-cm)", get_spec ["stall torque"] true false);
          ("RPM",
            get_spec ["rated speed (rpm)"; "rated speed"; "speed (rpm)"; "rpm"] true false);
          ("Efficiency (%)", efficiency);
          ("Weight (kg)", get_weight all_specs);
          ("Shipping Weight (kg)",
            get_spec ["shipping weight"; "shipping_weight"] false false);
          ("Shipping Dimensions (cm)",
            get_spec ["shipping dimensions"; "shipping_dimensions"] false false);
          ("Shaft Diameter (mm)", get_spec ["shaft diameter"; "shaft"] true false);
          ("Motor Type",
            get_spec ["motor type"; "item type"; "brushed"; "brushless"] false false);
          ("Model No.", get_spec ["model"; "model no"] false false);
          ("Gearbox", get_spec ["gearbox"; "gear box"; "gear"] false false);
          ("Dimensions", get_spec ["dimensions"; "dimension"; "lxd"] false false);
          ("Cable Length (cm)", get_spec ["cable length"; "cable"] true false) ])
  end.

(** [scrape_product_safe] of [scrape_motors.py], from the parsed page on: a
    record without a product name, and any exception, give [None]. *)
Definition scrape_product_safe (url : string) (page : Page) : option dict :=
  match scrape_product url page with
  | Ok data =>
      match data with
      | [] => None
      | _ :: _ =>
          match dict_get data "Product Name" with
          | Some name => if Str.truthy name then Some data else None
          | None => None
          end
      end
  | Raise _ => None
  end.

End Motor.

(** ** The battery engine ([scrape_battery.py]) *)

Module Battery.

Definition CSV_COLUMNS : list string :=
  [ "Product Name"; "URL"; "Stock Status"; "Price (INR)"; "Model No.";
    "Nominal Voltage (V)"; "Capacity (mAh)"; "Continuous Charge Current";
    "Continuous Discharge Current"; "Max Charge Rate"; "Max Discharge Rate";
    "Connector Type"; "Life Cycles"; "Application"; "Thickness (mm)";
    "Breadth (mm)"; "Length (mm)"; "Dimensions"; "Weight (g)";
    "Shipping Weight (kg)"; "Shipping Dimensions (cm)"; "Additional Specs" ].

(** "Merge all specs": [update(general_info)], then [update(spec_table)] *)
Definition merge (general_info spec_table : dict) : dict :=
  dict_update (dict_update [] general_info) spec_table.

(** The test of the loop of [get_spec]: equality with the key as it is in
    the dict when [exact], else the alias inside the key. *)
Definition hit (exact : bool) (key_lower spec_key value : string) : bool :=
  if exact then String.eqb spec_key key_lower
  else Str.contains key_lower spec_key.

Fixpoint get_spec_item (all_specs : dict) (keys : list string) (exact : bool)
  : option (string * string) :=
  match keys with
  | [] => None
  | key :: keys' =>
      match first_item (hit exact (Str.lower key)) all_specs with
      | Some kv => Some kv
      | None => get_spec_item all_specs keys' exact
      end
  end.

(** [get_spec] with its keys, [clean] and [exact]: "Get a spec value by
    trying multiple possible keys." *)
Definition get_spec (all_specs : dict) (keys : list string) (clean exact : bool)
  : string :=
  match get_spec_item all_specs keys exact with
  | Some (_, value) => cleaned clean value
  | None => ""
  end.

(** [get_weight]: "Get weight in grams." *)
Fixpoint get_weight (all_specs : dict) : string :=
  match all_specs with
  | [] => ""
  | (spec_key, value) :: rest =>
      let key_lower := Str.lower spec_key in
      if Str.contains "weight" key_lower
         && negb (Str.contains "shipping" key_lower)
      then
        let num := clean_number value in
        if Str.truthy num then num else get_weight rest
      else get_weight rest
  end.

(** [get_dimension(dim_type)] *)
Definition get_dimension (all_specs : dict) (dim_type : string) : string :=
  match first_item (fun spec_key _ => Str.contains dim_type (Str.lower spec_key))
                   all_specs with
  | Some (_, value) => clean_number value
  | None => ""
  end.

Definition axis_names : list string :=
  ["thickness"; "breadth"; "length"; "width"; "height"].

(** The test of the loop of [get_full_dimensions]: a dimension key that is
    neither a shipping key nor the key of a single axis. *)
Definition is_full_dimensions_key (spec_key : string) : bool :=
  Str.contains "dimension" (Str.lower spec_key)
  && negb (Str.contains "shipping" (Str.lower spec_key))
  && negb (List.existsb (fun x => Str.contains x (Str.lower spec_key)) axis_names).

(** [get_full_dimensions]: "Try to get full dimensions string." *)
Definition get_full_dimensions (all_specs : dict) : string :=
  match first_item (fun spec_key _ => is_full_dimensions_key spec_key) all_specs with
  | Some (_, value) => clean_value value
  | None =>
      let t := get_dimension all_specs "thickness" in
      let b := str_or (get_dimension all_specs "breadth")
                      (get_dimension all_specs "width") in
      let l := get_dimension all_specs "length" in
      if Str.truthy t && Str.truthy b && Str.truthy l
      then t ++ " × " ++ b ++ " × " ++ l ++ " mm"
      else ""
  end.

(** [scrape_battery], from the parsed page on; [None] is Python's [None]. *)
Definition scrape_battery (url : string) (page : Page) : option dict :=
  if negb (Str.truthy (product_name page)) then None
  else
    let clean_url := Str.rstrip_slash url in
    let all_specs := merge (general_info page) (spec_table page) in
    let get_spec := get_spec all_specs in
    let get_dimension := get_dimension all_specs in
    Some (dict_literal
      [ ("Product Name", product_name page);
        ("URL", clean_url);
        ("Stock Status", stock_status page);
        ("Price (INR)", price page);
        ("Model No.", get_spec ["model no"; "model"] false false);
        ("Nominal Voltage (V)", get_spec ["nominal voltage"; "voltage"] true false);
        ("Capacity (mAh)", get_spec ["nominal capacity"; "capacity"] true false);
        ("Continuous Charge Current",
          get_spec ["continuous charge current"; "charge current"] false false);
        ("Continuous Discharge Current",
          get_spec ["continuous dischg"; "continuous discharge"; "discharge current"]
                   false false);
        ("Max Charge Rate",
          get_spec ["max. charge rate"; "max charge rate"; "max. charge"] false false);
        ("Max Discharge Rate",
          get_spec ["max discharge rate"; "max. discharge"; "max dischg"] false false);
        ("Connector Type", get_spec ["connector type"; "connector"] false false);
        ("Life Cycles", get_spec ["life cycle"; "cycle"] false false);
        ("Application", get_spec ["application"] false false);
        ("Thickness (mm)", get_dimension "thickness");
        ("Breadth (mm)", str_or (get_dimension "breadth") (get_dimension "width"));
        ("Length (mm)", get_dimension "length");
        ("Dimensions", get_full_dimensions all_specs);
        ("Weight (g)", get_weight all_specs);
        ("Shipping Weight (kg)", get_spec ["shipping weight"] false false);
        ("Shipping Dimensions (cm)", get_spec ["shipping dimensions"] false false);
        ("Additional Specs", get_spec ["additional spec"] false false) ])
  .

End Battery.

(** ** The resolver as the specification words it *)

(** An alias and a map key are equal up to case. *)
Definition key_equal (alias key : string) : bool :=
  String.eqb (Str.lower alias) (Str.lower key).

(** The alias is inside the map key, or the map key inside the alias. *)
Definition key_overlap (alias key : string) : bool :=
  Str.contains (Str.lower alias) (Str.lower key)
  || Str.contains (Str.lower key) (Str.lower alias).

(** The field resolver of the specification: the aliases in order; for each
    first an exact match against the keys of the map, then, when the field
    does not ask for exact matching, a substring match in either direction;
    the first alias with a match gives the raw value; the empty string when
    no alias matches. *)
Fixpoint spec_resolve (m : dict) (aliases : list string) (exact : bool) : string :=
  match aliases with
  | [] => ""
  | alias :: rest =>
      match first_item (fun k _ => key_equal alias k) m with
      | Some (_, v) => v
      | None =>
          if exact then spec_resolve m rest exact
          else
            match first_item (fun k _ => key_overlap alias k) m with
            | Some (_, v) => v
            | None => spec_resolve m rest exact
            end
      end
  end.

(** No entry of the map with a value matches the alias. *)
Definition alias_misses (m : dict) (exact : bool) (alias : string) : Prop :=
  forall k v, In (k, v) m -> v <> "" ->
    key_equal alias k = false /\ (exact = false -> key_overlap alias k = false).

(** The entries that carry a value. *)
Definition with_value (m : dict) : dict :=
  filter (fun kv => Str.truthy (snd kv)) m.

(** The first run of digits and dots of a text. *)
Fixpoint first_run (s : string) : string :=
  match s with
  | EmptyString => EmptyString
  | String c t =>
      if Re.is_numdot c then fst (Str.span Re.is_numdot s) else first_run t
  end.

(** The efficiency normaliser of the specification: a number below one is
    multiplied by a hundred and rounded to the nearest integer. *)
Definition nearest_int (x : Float.float) : result Z :=
  match x with
  | S754_zero _ => Ok 0%Z
  | S754_infinity _ => Raise OverflowError
  | S754_nan => Raise ValueError
  | S754_finite neg m e =>
      let a := (if 0 <=? e then Z.shiftl (Zpos m) e
                else Z.shiftr (Z.shiftr (Zpos m) (- e - 1) + 1) 1)%Z in
      Ok (if neg then (- a)%Z else a)
  end.

Definition spec_efficiency (val : string) : result string :=
  match Float.of_string val with
  | Some num =>
      if Float.ltb num (Float.of_Z 1) then
        match nearest_int (Float.mul num (Float.of_Z 100)) with
        | Ok z => Ok (Float.str_of_Z z)
        | Raise e => Raise e
        end
      else Ok val
  | None => Ok val
  end.

(** The fields of a record that are resolved from the merged map. *)
Definition identity_fields : list string :=
  ["Product Name"; "URL"; "Stock Status"; "Price (INR)"].

Definition is_spec_field (name : string) : bool :=
  negb (List.existsb (String.eqb name) identity_fields).

(** Every field of a list is empty in a record. *)
Definition fields_empty (names : list string) (record : dict) : bool :=
  List.forallb
    (fun name =>
       match dict_get record name with
       | Some v => negb (Str.truthy v)
       | None => false
       end)
    names.

(** The page of a document in which no region and no regex match was found. *)
Definition bare_page (name stock cost : string) : Page :=
  {| product_name := name; stock_status := stock; price := cost;
     general_info := []; spec_table := []; regex_specs := [] |}.

(** ** The harvesters ([scrape_product.py]) *)

Module Harvest.

(** [text.split(":", 1)] when [":" in text]: the text before the first colon
    and the text after it. *)
Fixpoint partition_colon (text : string) : option (string * string) :=
  match text with
  | EmptyString => None
  | String c t =>
      if Ascii.eqb c ":" then Some (EmptyString, t)
      else
        match partition_colon t with
        | Some (a, b) => Some (String c a, b)
        | None => None
        end
  end.


(** The key and the value of a list item, when it has a colon and its key is
    shorter than fifty characters, [len(key) < 50] ("Skip if key is too
    long"). *)
Definition item_entry (text : string) : option (string * string) :=
  match partition_colon text with
  | Some (a, b) =>
      let key := Str.lower (Str.strip a) in
      let value := Str.strip b in
      if Nat.ltb (Str.len key) 50 then Some (key, value) else None
  | None => None
  end.

(** The body of the loop over the items of a list. *)
Definition harvest_item (specs : dict) (text : string) : dict :=
  match item_entry text with
  | Some (key, value) => dict_set specs key value
  | None => specs
  end.

(** [extract_general_info], from the lists it has found on: [all_lists] holds
    for each list the stripped text of its items. *)
Definition extract_general_info (all_lists : list (list string)) : dict :=
  fold_left (fun specs ol => fold_left harvest_item ol specs) all_lists [].




End Harvest.

(** The text has no colon. *)
Definition colon_free (s : string) : bool :=
  negb (Str.existsb (fun c => Ascii.eqb c ":") s).

(** What holds of every entry of the list source. *)
Definition list_entry_ok (kv : string * string) : Prop :=
  Str.lower (fst kv) = fst kv
  /\ Str.strip (fst kv) = fst kv
  /\ Str.len (fst kv) < 50
  /\ colon_free (fst kv) = true
  /\ Str.strip (snd kv) = snd kv.

(** ** The regex harvester ([scrape_product.py]) *)

Module RegexHarvest.

Section WithRe.

(** [re.search(pattern, text)] of the regular expression library: group 1 of
    the leftmost match, if there is one. *)
Variable re_search : string -> string -> option string.

(** The loop over the patterns of one key: the first pattern that matches
    gives the value. *)
Fixpoint first_match (pattern_list : list string) (text : string) : option string :=
  match pattern_list with
  | [] => None
  | pattern :: rest =>
      match re_search pattern text with
      | Some g => Some g
      | None => first_match rest text
      end
  end.

(** The loop over a table of patterns. *)
Definition harvest (patterns : list (string * list string)) (text : string)
  : dict :=
  fold_left
    (fun specs kp =>
       match first_match (snd kp) text with
       | Some g => dict_set specs (fst kp) g
       | None => specs
       end)
    patterns [].

(** The table [patterns] of [extract_via_regex]; "Voltage/Power/RPM regex
    removed - too many false positives from related products". *)
Definition patterns : list (string * list string) :=
  [ ("weight_kg",
      [ "weight\s*[:\(]?\s*(\d+\.?\d*)\s*kg";
        "(\d+\.?\d*)\s*kg\s*weight" ]);
    ("shipping_weight",
      [ "shipping\s*weight\s*[:\s]*(\d+\.?\d*)\s*kg" ]);
    ("shipping_dimensions",
      [ "shipping\s*dimensions?\s*[:\s]*([\d.]+\s*[×x]\s*[\d.]+\s*[×x]\s*[\d.]+)\s*cm" ]);
    ("rated_current",
      [ "rated?\s*current\s*[:\(]?\s*[<>]?\s*(\d+\.?\d*)\s*a" ]);
    ("no_load_current",
      [ "no\s*load\s*current\s*[:\(]?\s*[<>]?\s*(\d+\.?\d*)\s*a" ]);
    ("rated_torque",
      [ "rated?\s*torque\s*[:\(]?\s*(\d+\.?\d*)\s*(?:kg[.-]?cm|n\.?m)" ]);
    ("stall_torque",
      [ "stall\s*torque\s*[:\(]?\s*(\d+\.?\d*)\s*(?:kg[.-]?cm|n\.?m)" ]);
    ("efficiency",
      [ "efficiency\s*[:\(]?\s*[>]?\s*(\d+)" ]);
    ("shaft_diameter",
      [ "shaft\s*diameter\s*[:\(]?\s*(\d+\.?\d*)\s*mm" ]) ].

(** [extract_via_regex]: "Extract specifications using regex patterns on
    entire page." *)
Definition extract_via_regex (html : string) : dict :=
  harvest patterns (Str.lower html).

End WithRe.

End RegexHarvest.

(** The patterns of a key in a table of patterns. *)
Fixpoint patterns_of (patterns : list (string * list string)) (key : string)
  : option (list string) :=
  match patterns with
  | [] => None
  | (k, pl) :: rest => if String.eqb k key then Some pl else patterns_of rest key
  end.

(** The map without a key. *)
Definition dict_without (k : string) (d : dict) : dict :=
  filter (fun kv => negb (String.eqb (fst kv) k)) d.

(** No alias of the list is equal to the key or overlaps with it. *)
Definition hidden_from (k : string) (aliases : list string) : bool :=
  List.forallb (fun a => negb (key_equal a k) && negb (key_overlap a k)) aliases.

(** The page with another regex source. *)
Definition set_regex_specs (page : Page) (r : dict) : Page :=
  {| product_name := product_name page;
     stock_status := stock_status page;
     price := price page;
     general_info := general_info page;
     spec_table := spec_table page;
     regex_specs := r |}.

(** The keys of a list that are not among those seen. *)
Definition fresh (seen keys : list string) : list string :=
  filter (fun k => negb (List.existsb (String.eqb k) seen)) keys.

(** A weight key of the battery engine: it names the weight and not the
    shipping weight. *)
Definition battery_weight_key (spec_key : string) : bool :=
  Str.contains "weight" (Str.lower spec_key)
  && negb (Str.contains "shipping" (Str.lower spec_key)).

(** The entries whose key does not name shipping. *)
Definition without_shipping (d : dict) : dict :=
  filter (fun kv => negb (Str.contains "shipping" (Str.lower (fst kv)))) d.

(** ** The batch drivers ([scrape_motors.py], [scrape_batteries.py]) *)

Module Batch.

(** "URLs to exclude (services, not motors)"; the same set in both drivers. *)
Definition EXCLUDED_URLS : list string :=
  [ "https://robu.in/product/metal-laser-cutting";
    "https://robu.in/product/3d-printing-service";
    "https://robu.in/product/online-laser-cutting-service";
    "https://robu.in/product/sla-3d-printing";
    "https://robu.in/product/online-pcb-manufacturing-service" ].

(** [x in s] *)
Definition mem (x : string) (s : list string) : bool :=
  List.existsb (String.eqb x) s.

(** [s.add(x)] on a set, kept as a list without repetition. *)
Definition set_add (s : list string) (x : string) : list string :=
  if mem x s then s else x :: s.

(** [sorted(s)]: the members in increasing order. *)
Fixpoint insert (x : string) (l : list string) : list string :=
  match l with
  | [] => [x]
  | y :: r => if String.leb x y then x :: l else y :: insert x r
  end.

Fixpoint sorted (l : list string) : list string :=
  match l with
  | [] => []
  | x :: r => insert x (sorted r)
  end.

(** The test of the first strategy. *)
Definition grid_href_ok (href : string) : bool :=
  Str.contains "robu.in/product/" href
  && negb (Str.contains "/product-category/" href).

(** [s] without the prefix [p], when it starts with it. *)
Fixpoint after_prefix (p s : string) : option string :=
  match p, s with
  | EmptyString, _ => Some s
  | String a p', String b s' =>
      if Ascii.eqb a b then after_prefix p' s' else None
  | String _ _, EmptyString => None
  end.

Definition not_slash (c : ascii) : bool := negb (Ascii.eqb c "/").

(** [re.match(r"https?://robu\.in/product/[^/]+/?$", href)]: after the
    address, a non-empty run without slash, then nothing, a slash, or a slash
    and a final line feed (the dollar also matches before a final line feed,
    and a line feed that is not final belongs to the run). *)
Definition is_product_url (href : string) : bool :=
  match after_prefix "http" href with
  | None => false
  | Some rest =>
      let rest := match rest with
                  | String c t => if Ascii.eqb c "s" then t else rest
                  | EmptyString => rest
                  end in
      match after_prefix "://robu.in/product/" rest with
      | None => false
      | Some body =>
          let '(seg, tail) := Str.span not_slash body in
          Str.truthy seg
          && (String.eqb tail "" || String.eqb tail "/"
              || String.eqb tail (String "/" (String "010" "")))
      end
  end.

(** [clean_url = href.rstrip("/")], added unless excluded. *)
Definition add_url (product_urls : list string) (href : string) : list string :=
  let clean_url := Str.rstrip_slash href in
  if negb (mem clean_url EXCLUDED_URLS) then set_add product_urls clean_url
  else product_urls.

(** [extract_product_urls], from the links on: [grid_links] holds the
    addresses of the links of the product grid, when the page has one, and
    [all_links] those of all links of the page. *)
Definition extract_product_urls
           (grid_links : option (list string)) (all_links : list string)
  : list string :=
  let from_grid :=
    match grid_links with
    | Some links =>
        fold_left (fun urls href => if grid_href_ok href then add_url urls href
                                    else urls) links []
    | None => []
    end in
  sorted
    (fold_left (fun urls href => if is_product_url href then add_url urls href
                                 else urls) all_links from_grid).

(** [[url for url in all_product_urls if url not in existing_urls]] *)
Definition new_urls (all_product_urls existing_urls : list string) : list string :=
  filter (fun url => negb (mem url existing_urls)) all_product_urls.

(** [{col: row.get(col, "") for col in CSV_COLUMNS}] of [append_to_csv] *)
Definition row_data (columns : list string) (row : dict) : dict :=
  dict_literal
    (map (fun col => (col, match dict_get row col with
                           | Some v => v
                           | None => ""
                           end)) columns).

End Batch.

(** ** Fetching ([scrape_product.py]) *)

Module Fetch.

(** [fetch_page]: "Fetch a page with retries".  [get attempt] is what
    the request of that attempt gives: the text of the response, or [None]
    when it raises.  The result comes with the seconds slept, in order.
    [remaining] counts the attempts still to make. *)
Fixpoint fetch_from (get : nat -> option string) (retries remaining : nat)
  : option string * list Z :=
  match remaining with
  | O => (None, [])
  | S remaining' =>
      let attempt := retries - remaining in
      match get attempt with
      | Some text => (Some text, [])
      | None =>
          let '(res, naps) := fetch_from get retries remaining' in
          (res, if Nat.ltb attempt (retries - 1)
                then (2 ^ Z.of_nat attempt)%Z :: naps else naps)
      end
  end.

Definition fetch_page (get : nat -> option string) (retries : nat)
  : option string * list Z :=
  fetch_from get retries retries.

(** The naps before attempt [j]: one, two, four seconds and so on. *)
Definition backoff (j : nat) : list Z :=
  map (fun a => (2 ^ Z.of_nat a)%Z) (seq 0 j).

End Fetch.

(** Each member of the list is at most the next one. *)
Fixpoint increasing (l : list string) : bool :=
  match l with
  | [] => true
  | x :: r =>
      match r with
      | [] => true
      | y :: _ => String.leb x y && increasing r
      end
  end.

(** What holds of every address that is added. *)
Definition url_ok (u : string) : Prop :=
  Str.rstrip_slash u = u /\ ~ In u Batch.EXCLUDED_URLS.

(** ** Stock status and price ([scrape_product.py]) *)

Module Identity.

(** [extract_stock_status], from the texts it reads on: [stock_text] is the
    stripped text of the stock paragraph inside the availability block, when
    the page has it, and [page_text] the text of the whole page. *)
Definition extract_stock_status (stock_text : option string) (page_text : string)
  : string :=
  match stock_text with
  | Some text =>
      let text_lower := Str.lower text in
      if Str.contains "out of stock" text_lower then "Out of Stock"
      else if Str.contains "in stock" text_lower then "In Stock"
      else if Str.contains "low" text_lower
              || Str.contains "order now" text_lower then "Low Stock"
      else text
  | None =>
      let page_text := Str.lower page_text in
      if Str.contains "out of stock" page_text then "Out of Stock"
      else if Str.contains "in stock" page_text then "In Stock"
      else if Str.contains "low stock" page_text
              || Str.contains "low in stock" page_text then "Low Stock"
      else "Unknown"
  end.

(** [text.replace(",", "")] *)
Fixpoint remove_commas (s : string) : string :=
  match s with
  | EmptyString => EmptyString
  | String c t =>
      if Ascii.eqb c "," then remove_commas t else String c (remove_commas t)
  end.

(** [[\d,]] *)
Definition is_digit_or_comma (c : ascii) : bool :=
  Str.is_digit c || Ascii.eqb c ",".

(** [[\d,]+\.?\d*] anchored at the start of a text that starts with a digit
    or a comma: the match.  Each part takes all it can, and what follows the
    first part may match nothing, so nothing is ever given back. *)
Definition match_price (s : string) : string :=
  let '(run, rest) := Str.span is_digit_or_comma s in
  run ++
  match rest with
  | String c rest' =>
      if Ascii.eqb c "." then String c (fst (Str.span Str.is_digit rest'))
      else EmptyString
  | EmptyString => EmptyString
  end.

(** [re.search(r"[\d,]+\.?\d*", s)]: the leftmost match. *)
Fixpoint search_price (s : string) : option string :=
  match s with
  | EmptyString => None
  | String c t =>
      if is_digit_or_comma c then Some (match_price s) else search_price t
  end.

(** The price paragraph as [extract_price] reads it: whether it has an [ins]
    element and the text of the [bdi] element inside it, and the text of the
    first [bdi] element of the paragraph. *)
Record PriceElem : Type := {
  ins_bdi : option (option string);
  first_bdi : option string
}.

(** [extract_price]: "Extract product price." *)
Definition extract_price (price_elem : option PriceElem) : string :=
  match price_elem with
  | Some elem =>
      let amount :=
        match ins_bdi elem with
        | Some bdi => bdi
        | None => first_bdi elem
        end in
      match amount with
      | Some text =>
          match search_price (remove_commas text) with
          | Some m => m
          | None => ""
          end
      | None => ""
      end
  | None => ""
  end.

End Identity.

(** ** Shapes of cleaned text *)

(** The text does not start with white space. *)
Definition starts_clean (s : string) : bool :=
  match s with
  | EmptyString => true
  | String c _ => negb (Str.is_space c)
  end.

(** The text does not end with white space. *)
Fixpoint ends_clean (s : string) : bool :=
  match s with
  | EmptyString => true
  | String c EmptyString => negb (Str.is_space c)
  | String _ t => ends_clean t
  end.

(** Every white space character of the text is a space that another
    character which is not white space follows. *)
Fixpoint single_spaced (s : string) : bool :=
  match s with
  | EmptyString => true
  | String c t =>
      (if Str.is_space c
       then Ascii.eqb c " "
            && match t with
               | EmptyString => false
               | String d _ => negb (Str.is_space d)
               end
       else true)
      && single_spaced t
  end.

(** * Properties *)

(** Distinct keys of a dict given in full. *)
Ltac solve_wf_dict :=
  unfold wf_dict; simpl;
  repeat (constructor; [simpl; intuition discriminate|]);
  constructor.

(** ** Characters *)

Lemma space_not_numdot (c : ascii) :
  Str.is_space c = true -> Re.is_numdot c = false.
Proof.
  destruct c as [[] [] [] [] [] [] [] []]; vm_compute; congruence.
Qed.

Lemma cmp_not_numdot (c : ascii) :
  Re.is_cmp c = true -> Re.is_numdot c = false.
Proof.
  destruct c as [[] [] [] [] [] [] [] []]; vm_compute; congruence.
Qed.

Lemma truthy_true (s : string) : Str.truthy s = true <-> s <> "".
Proof.
  destruct s; simpl; split; congruence.
Qed.

(** ** The numeric cleaner *)

Lemma span_forallb (p : ascii -> bool) (s : string) :
  Str.forallb p (fst (Str.span p s)) = true.
Proof.
  induction s as [|c t IH]; simpl; [reflexivity|].
  destruct (p c) eqn:Hc; [|reflexivity].
  destruct (Str.span p t) as [a b]; simpl in *. now rewrite Hc.
Qed.

Lemma first_run_forallb (s : string) :
  Str.forallb Re.is_numdot (first_run s) = true.
Proof.
  induction s as [|c t IH]; simpl; [reflexivity|].
  destruct (Re.is_numdot c) eqn:Hc; [|exact IH].
  destruct (Str.span Re.is_numdot t) as [a b] eqn:Hs; simpl.
  rewrite Hc. generalize (span_forallb Re.is_numdot t). now rewrite Hs.
Qed.

Lemma first_run_lstrip (s : string) : first_run (Str.lstrip s) = first_run s.
Proof.
  induction s as [|c t IH]; simpl; [reflexivity|].
  destruct (Str.is_space c) eqn:Hc; [|reflexivity].
  now rewrite (space_not_numdot c Hc).
Qed.

Lemma existsb_lstrip (s : string) :
  Str.existsb Re.is_numdot (Str.lstrip s) = Str.existsb Re.is_numdot s.
Proof.
  induction s as [|c t IH]; simpl; [reflexivity|].
  destruct (Str.is_space c) eqn:Hc; [|reflexivity].
  now rewrite (space_not_numdot c Hc).
Qed.

(** The tail of the pattern matches exactly when the text, after its leading
    white space, starts with a digit or a dot, and the group is the run that
    starts there. *)
Lemma match_tail_some (s g : string) :
  Re.match_tail s = Some g ->
  g = first_run s /\ Str.existsb Re.is_numdot s = true.
Proof.
  unfold Re.match_tail. rewrite <- first_run_lstrip, <- existsb_lstrip.
  destruct (Str.lstrip s) as [|c t]; simpl; [discriminate|].
  destruct (Re.is_numdot c) eqn:Hc; [|discriminate].
  destruct (Str.span Re.is_numdot t) as [a b]; simpl.
  intros H; injection H as <-. now split.
Qed.

Lemma match_tail_none (c : ascii) (t : string) :
  Re.match_tail (String c t) = None -> Re.is_numdot c = false.
Proof.
  unfold Re.match_tail. simpl.
  destruct (Re.is_numdot c) eqn:Hc; [|reflexivity].
  destruct (Str.is_space c) eqn:Hs.
  - apply space_not_numdot in Hs. congruence.
  - simpl. rewrite Hc. destruct (Str.span Re.is_numdot t); discriminate.
Qed.

(** [re.search] returns the first run of digits and dots of the text, whatever
    stands before it. *)
Lemma search_number_first_run (s : string) :
  Re.search_number s =
  if Str.existsb Re.is_numdot s then Some (first_run s) else None.
Proof.
  induction s as [|c t IH]; [reflexivity|].
  cbn [Re.search_number Re.match_here].
  destruct (Re.is_cmp c) eqn:Hcmp.
  - pose proof (cmp_not_numdot c Hcmp) as Hnd.
    cbn [Str.existsb first_run]. rewrite Hnd. cbn [orb].
    destruct (Re.match_tail t) as [g|] eqn:Ht.
    + apply match_tail_some in Ht as [-> ->]. reflexivity.
    + destruct (Re.match_tail (String c t)) as [g|] eqn:Hs.
      * apply match_tail_some in Hs as [-> Hs]. cbn in Hs. rewrite Hnd in Hs.
        cbn in Hs. rewrite Hs. cbn. now rewrite Hnd.
      * exact IH.
  - destruct (Re.match_tail (String c t)) as [g|] eqn:Hs.
    + apply match_tail_some in Hs as [-> ->]. reflexivity.
    + pose proof (match_tail_none c t Hs) as Hnd.
      cbn [Str.existsb first_run]. rewrite Hnd. exact IH.
Qed.

(** [clean_number] in closed form. *)
Lemma clean_number_first_run (text : string) :
  clean_number text =
  if Str.existsb Re.is_numdot (Str.strip text)
  then first_run (Str.strip text)
  else Str.strip text.
Proof.
  unfold clean_number. rewrite search_number_first_run.
  destruct text as [|c t]; [reflexivity|].
  cbn [Str.truthy negb].
  now destruct (Str.existsb Re.is_numdot (Str.strip (String c t))).
Qed.

(** A cleaned number is either made of digits and dots only, or has none. *)
Lemma clean_number_shape (text : string) :
  Str.forallb Re.is_numdot (clean_number text) = true
  \/ Str.existsb Re.is_numdot (clean_number text) = false.
Proof.
  rewrite clean_number_first_run.
  destruct (Str.existsb Re.is_numdot (Str.strip text)) eqn:H.
  - left. apply first_run_forallb.
  - now right.
Qed.

Example clean_number_spec_examples :
  clean_number "<0.5A" = "0.5"
  /\ clean_number "Approx 120" = "120"
  /\ clean_number "N/A" = "N/A".
Proof. repeat split. Qed.

(** C7 (at the failing inputs).  The claim has the numeric cleaner return
    the first decimal number of the text, and the text itself when there is
    none.  The character class of the pattern also takes a lone dot: from
    "Approx. 120" the cleaner returns "." and not "120", and from "N.A.",
    which holds no number, it returns "." and not the text. *)
Theorem clean_number_takes_lone_dot :
  clean_number "Approx. 120" = "."
  /\ clean_number "N.A." = "."
  /\ Float.of_string (clean_number "Approx. 120") = None.
Proof. repeat split. Qed.

(** ** Dictionaries *)

Lemma dict_get_set (d : dict) (k v k' : string) :
  dict_get (dict_set d k v) k' =
  if String.eqb k k' then Some v else dict_get d k'.
Proof.
  induction d as [|[k0 v0] r IH]; simpl.
  - reflexivity.
  - destruct (String.eqb k0 k) eqn:E0; simpl.
    + apply String.eqb_eq in E0; subst k0.
      now destruct (String.eqb k k').
    + destruct (String.eqb k0 k') eqn:E1; [|exact IH].
      apply String.eqb_eq in E1; subst k0.
      rewrite String.eqb_sym in E0. now rewrite E0.
Qed.

Lemma dict_get_none (d : dict) (k : string) :
  ~ In k (map fst d) -> dict_get d k = None.
Proof.
  induction d as [|[k0 v0] r IH]; simpl; [reflexivity|].
  intros H. destruct (String.eqb k0 k) eqn:E.
  - apply String.eqb_eq in E. tauto.
  - apply IH. tauto.
Qed.

Lemma dict_get_in (d : dict) (k v : string) :
  wf_dict d -> In (k, v) d -> dict_get d k = Some v.
Proof.
  unfold wf_dict. induction d as [|[k0 v0] r IH]; simpl; [tauto|].
  intros Hwf [H|H]; inversion Hwf as [|? ? Hnot Hr]; subst.
  - injection H as -> ->. now rewrite String.eqb_refl.
  - destruct (String.eqb k0 k) eqn:E; [|now apply IH].
    apply String.eqb_eq in E; subst k0.
    exfalso. apply Hnot. now apply (in_map fst) in H.
Qed.

Lemma dict_set_keys (d : dict) (k v : string) :
  map fst (dict_set d k v) =
  if List.existsb (String.eqb k) (map fst d) then map fst d
  else (map fst d ++ [k])%list.
Proof.
  induction d as [|[k0 v0] r IH]; simpl; [reflexivity|].
  rewrite (String.eqb_sym k k0).
  destruct (String.eqb k0 k) eqn:E; simpl; [reflexivity|].
  rewrite IH. now destruct (List.existsb (String.eqb k) (map fst r)).
Qed.

Lemma dict_set_wf (d : dict) (k v : string) :
  wf_dict d -> wf_dict (dict_set d k v).
Proof.
  unfold wf_dict. rewrite dict_set_keys.
  destruct (List.existsb (String.eqb k) (map fst d)) eqn:E; [tauto|].
  intros H. apply NoDup_app; [exact H|repeat constructor; simpl; tauto|].
  intros x Hx [Hk|[]]. subst x.
  assert (List.existsb (String.eqb k) (map fst d) = true); [|congruence].
  apply List.existsb_exists. exists k. split; [exact Hx|apply String.eqb_refl].
Qed.

Lemma dict_update_wf (e d : dict) :
  wf_dict d -> wf_dict (dict_update d e).
Proof.
  unfold dict_update. revert d.
  induction e as [|[k v] e IH]; simpl; intros d H; [exact H|].
  apply IH. now apply dict_set_wf.
Qed.

(** After [d.update(e)] a key of [e] has the value of [e], any other key
    keeps the value it has in [d]. *)
Lemma dict_get_update (e d : dict) (k : string) :
  wf_dict e ->
  dict_get (dict_update d e) k =
  match dict_get e k with
  | Some v => Some v
  | None => dict_get d k
  end.
Proof.
  unfold dict_update, wf_dict. revert d.
  induction e as [|[k0 v0] e IH]; simpl; intros d Hwf; [reflexivity|].
  inversion Hwf as [|? ? Hnot He]; subst.
  rewrite IH by exact He. rewrite dict_get_set.
  destruct (String.eqb k0 k) eqn:E; [|reflexivity].
  apply String.eqb_eq in E; subst k0.
  now rewrite (dict_get_none e k Hnot).
Qed.

Lemma first_item_some (p : string -> string -> bool) (d : dict) (k v : string) :
  first_item p d = Some (k, v) -> In (k, v) d /\ p k v = true.
Proof.
  unfold first_item. intros H. now apply find_some in H.
Qed.

Lemma first_item_none (p : string -> string -> bool) (d : dict) (k v : string) :
  first_item p d = None -> In (k, v) d -> p k v = false.
Proof.
  unfold first_item. intros H Hin. exact (find_none _ _ H (k, v) Hin).
Qed.

(** Entries that a test never accepts can be dropped before the search. *)
Lemma first_item_filter (p : string -> string -> bool)
      (q : string * string -> bool) (d : dict) :
  (forall k v, p k v = true -> q (k, v) = true) ->
  first_item p (filter q d) = first_item p d.
Proof.
  intros Hpq. unfold first_item.
  induction d as [|[k v] r IH]; simpl; [reflexivity|].
  destruct (q (k, v)) eqn:Hq; simpl.
  - now rewrite IH.
  - destruct (p k v) eqn:Hp; [|exact IH].
    apply Hpq in Hp. congruence.
Qed.

(** ** The merge policy *)

Lemma motor_merge_wf (r l t : dict) : wf_dict (Motor.merge r l t).
Proof.
  unfold Motor.merge. repeat apply dict_update_wf. constructor.
Qed.

Lemma motor_merge_get (r l t : dict) (k : string) :
  wf_dict r -> wf_dict l -> wf_dict t ->
  dict_get (Motor.merge r l t) k =
  match dict_get t k with
  | Some v => Some v
  | None =>
      match dict_get l k with
      | Some v => Some v
      | None => dict_get r k
      end
  end.
Proof.
  intros Hr Hl Ht. unfold Motor.merge.
  rewrite !dict_get_update by assumption.
  destruct (dict_get t k), (dict_get l k), (dict_get r k); reflexivity.
Qed.

Lemma motor_get_spec_item_in (d : dict) (keys : list string) (exact : bool)
      (k v : string) :
  Motor.get_spec_item d keys exact = Some (k, v) -> In (k, v) d /\ v <> "".
Proof.
  induction keys as [|key keys IH]; simpl; [discriminate|].
  destruct (first_item (Motor.exact_hit (Str.lower key)) d) as [kv|] eqn:H1.
  - intros H; injection H as ->. apply first_item_some in H1 as [Hin Hp].
    split; [exact Hin|]. unfold Motor.exact_hit in Hp.
    apply andb_true_iff in Hp as [_ Hp]. now apply truthy_true.
  - destruct exact; [exact IH|].
    destruct (first_item (Motor.partial_hit (Str.lower key)) d) as [kv|] eqn:H2;
      [|exact IH].
    intros H; injection H as ->. apply first_item_some in H2 as [Hin Hp].
    split; [exact Hin|]. unfold Motor.partial_hit in Hp.
    apply andb_true_iff in Hp as [_ Hp]. now apply truthy_true.
Qed.

(** C2 (at the failing input).  The merge takes the regex, list and table
    maps in this order, a later map overwriting the keys of an earlier one:
    under each raw key the merged map holds the table's value, else the
    list's, else the regex's.  The resolved field does not follow.  The
    regex source names the no-load current "no_load_current", another raw
    key than the "no load current" of a list item or a table row; its key
    comes first in the merged map, and the resolver of the no-load current
    returns from the first key that names it.  For a page with the list item
    "No Load Current: 2 A", which the regex reads as "2", and the table row
    "No Load Current" with "150mA", the merged map holds the table's "150mA"
    under "no load current", and the field is the "2" of the regex source,
    not the "0.15" that the table gives. *)
Theorem merge_precedence_lost_in_field :
  (forall regex_specs general_info spec_table k,
      wf_dict regex_specs -> wf_dict general_info -> wf_dict spec_table ->
      dict_get (Motor.merge regex_specs general_info spec_table) k
      = match dict_get spec_table k with
        | Some v => Some v
        | None =>
            match dict_get general_info k with
            | Some v => Some v
            | None => dict_get regex_specs k
            end
        end)
  /\ (let page :=
        {| product_name := "DC Motor"; stock_status := "In Stock"; price := "499";
           general_info := [("no load current", "2 A")];
           spec_table := [("no load current", "150mA")];
           regex_specs := [("no_load_current", "2")] |} in
      let all_specs :=
        Motor.merge (regex_specs page) (general_info page) (spec_table page) in
      all_specs = [("no_load_current", "2"); ("no load current", "150mA")]
      /\ dict_get all_specs "no load current" = Some "150mA"
      /\ Motor.get_no_load_current all_specs = "2"
      /\ Motor.get_no_load_current (spec_table page) = "0.15"
      /\ exists record,
           Motor.scrape_product "https://robu.in/product/dc-motor" page = Ok record
           /\ dict_get record "No Load Current (A)" = Some "2").
Proof.
  split.
  - intros regex_specs general_info spec_table k. apply motor_merge_get.
  - cbv zeta. split; [reflexivity|]. split; [reflexivity|].
    split; [reflexivity|]. split; [reflexivity|].
    eexists. split; reflexivity.
Qed.

Lemma merge_precedence_lost_in_field_witness :
  let regex_specs := [("rated current", "2"); ("weight_kg", "0.4")] in
  let general_info := [("rated current", "3"); ("model", "M1")] in
  let spec_table := [("rated current", "4")] in
  wf_dict regex_specs /\ wf_dict general_info /\ wf_dict spec_table
  /\ dict_get (Motor.merge regex_specs general_info spec_table) "rated current"
     = Some "4"
  /\ dict_get (Motor.merge regex_specs general_info spec_table) "model"
     = Some "M1"
  /\ dict_get (Motor.merge regex_specs general_info spec_table) "weight_kg"
     = Some "0.4".
Proof.
  intros regex_specs general_info spec_table.
  assert (Hr : wf_dict regex_specs) by solve_wf_dict.
  assert (Hl : wf_dict general_info) by solve_wf_dict.
  assert (Ht : wf_dict spec_table) by solve_wf_dict.
  pose proof (fun k => proj1 merge_precedence_lost_in_field
                         regex_specs general_info spec_table k Hr Hl Ht) as H.
  split; [exact Hr|]. split; [exact Hl|]. split; [exact Ht|].
  split; [exact (H "rated current")|].
  split; [exact (H "model")|exact (H "weight_kg")].
Defined.

(** ** The field resolver of the motor engine *)

Lemma exact_hit_with_value (key_lower k v : string) :
  Motor.exact_hit key_lower k v = true -> Str.truthy (snd (k, v)) = true.
Proof.
  unfold Motor.exact_hit. intros H. now apply andb_true_iff in H.
Qed.

Lemma partial_hit_with_value (key_lower k v : string) :
  Motor.partial_hit key_lower k v = true -> Str.truthy (snd (k, v)) = true.
Proof.
  unfold Motor.partial_hit. intros H. now apply andb_true_iff in H.
Qed.

Lemma motor_get_spec_item_with_value (d : dict) (keys : list string) (exact : bool) :
  Motor.get_spec_item (with_value d) keys exact = Motor.get_spec_item d keys exact.
Proof.
  unfold with_value.
  induction keys as [|key keys IH]; simpl; [reflexivity|].
  rewrite !first_item_filter
    by (intros k v; first [apply exact_hit_with_value | apply partial_hit_with_value]).
  now rewrite IH.
Qed.

Lemma with_value_drop (before after : dict) (k : string) :
  with_value (before ++ (k, "") :: after)%list
  = with_value (before ++ after)%list.
Proof.
  unfold with_value. now rewrite !filter_app.
Qed.

(** C10.  In the alias resolution of the motor engine an entry whose value
    is the empty string is skipped by the exact and by the substring search:
    the resolver gives the same result on the map without the entries of
    empty value, in particular with one such entry taken out, and the entry
    it resolves from never has an empty value. *)
Theorem get_spec_skips_empty_values
        (all_specs : dict) (keys : list string) (clean exact : bool) :
  Motor.get_spec all_specs keys clean exact
  = Motor.get_spec (with_value all_specs) keys clean exact
  /\ (forall before k after,
        all_specs = (before ++ (k, "") :: after)%list ->
        Motor.get_spec all_specs keys clean exact
        = Motor.get_spec (before ++ after)%list keys clean exact)
  /\ (forall k v,
        Motor.get_spec_item all_specs keys exact = Some (k, v) -> v <> "").
Proof.
  unfold Motor.get_spec. repeat split.
  - now rewrite motor_get_spec_item_with_value.
  - intros before k after ->.
    rewrite <- (motor_get_spec_item_with_value (before ++ _ :: _)%list).
    rewrite <- (motor_get_spec_item_with_value (before ++ after)%list).
    now rewrite with_value_drop.
  - intros k v H. now apply motor_get_spec_item_in in H.
Qed.

Lemma get_spec_skips_empty_values_witness :
  Motor.get_spec [("voltage", ""); ("rated voltage", "12 V")]
                 ["voltage"; "rated voltage"] true false
  = Motor.get_spec [("rated voltage", "12 V")]
                   ["voltage"; "rated voltage"] true false
  /\ "12 V" <> "".
Proof.
  destruct (get_spec_skips_empty_values
              [("voltage", ""); ("rated voltage", "12 V")]
              ["voltage"; "rated voltage"] true false) as (_ & Hdrop & Hval).
  split.
  - apply (Hdrop [] "voltage" [("rated voltage", "12 V")]). reflexivity.
  - apply (Hval "rated voltage"). reflexivity.
Defined.

Lemma exact_hit_key_equal (alias k v : string) :
  Motor.exact_hit (Str.lower alias) k v = key_equal alias k && Str.truthy v.
Proof. reflexivity. Qed.

Lemma partial_hit_key_overlap (alias k v : string) :
  Motor.partial_hit (Str.lower alias) k v = key_overlap alias k && Str.truthy v.
Proof. reflexivity. Qed.

(** What a failed search of one alias says about the map. *)
Lemma motor_alias_misses (d : dict) (exact : bool) (alias : string) :
  first_item (Motor.exact_hit (Str.lower alias)) d = None ->
  (exact = false -> first_item (Motor.partial_hit (Str.lower alias)) d = None) ->
  alias_misses d exact alias.
Proof.
  intros H1 H2 k v Hin Hv. apply truthy_true in Hv. split.
  - pose proof (first_item_none _ _ _ _ H1 Hin) as H.
    rewrite exact_hit_key_equal, Hv, andb_true_r in H. exact H.
  - intros He. pose proof (first_item_none _ _ _ _ (H2 He) Hin) as H.
    rewrite partial_hit_key_overlap, Hv, andb_true_r in H. exact H.
Qed.

(** The alias walk of the motor engine: either some alias has a match and
    every alias before it has none, or no alias has a match. *)
Lemma motor_get_spec_item_walk (d : dict) (keys : list string) (exact : bool) :
  (exists before alias after k v,
      keys = (before ++ alias :: after)%list
      /\ Forall (alias_misses d exact) before
      /\ In (k, v) d /\ v <> ""
      /\ (key_equal alias k = true
          \/ (exact = false
              /\ (forall k' v', In (k', v') d -> v' <> "" ->
                    key_equal alias k' = false)
              /\ key_overlap alias k = true))
      /\ Motor.get_spec_item d keys exact = Some (k, v))
  \/ (Forall (alias_misses d exact) keys
      /\ Motor.get_spec_item d keys exact = None).
Proof.
  induction keys as [|key keys IH]; [right; split; [constructor|reflexivity]|].
  cbn [Motor.get_spec_item].
  destruct (first_item (Motor.exact_hit (Str.lower key)) d) as [[k v]|] eqn:H1.
  { left. exists [], key, keys, k, v.
    apply first_item_some in H1 as [Hin Hp].
    rewrite exact_hit_key_equal in Hp. apply andb_true_iff in Hp as [Hk Hv].
    apply truthy_true in Hv. repeat split; auto. }
  assert (Hexact : forall k' v', In (k', v') d -> v' <> "" ->
            key_equal key k' = false).
  { intros k' v' Hin Hv. apply truthy_true in Hv.
    pose proof (first_item_none _ _ _ _ H1 Hin) as H.
    rewrite exact_hit_key_equal, Hv, andb_true_r in H. exact H. }
  assert (Hnext : alias_misses d exact key ->
    (exists before alias after k v,
        key :: keys = (before ++ alias :: after)%list
        /\ Forall (alias_misses d exact) before
        /\ In (k, v) d /\ v <> ""
        /\ (key_equal alias k = true
            \/ (exact = false
                /\ (forall k' v', In (k', v') d -> v' <> "" ->
                      key_equal alias k' = false)
                /\ key_overlap alias k = true))
        /\ Motor.get_spec_item d keys exact = Some (k, v))
    \/ (Forall (alias_misses d exact) (key :: keys)
        /\ Motor.get_spec_item d keys exact = None)).
  { intros Hmiss.
    destruct IH as [(before & alias & after & k & v & -> & Hb & Hrest)|[Hall Hnone]].
    - left. exists (key :: before), alias, after, k, v.
      split; [reflexivity|]. split; [now constructor|exact Hrest].
    - right. split; [now constructor|exact Hnone]. }
  destruct exact.
  { apply Hnext. apply motor_alias_misses; [exact H1|discriminate]. }
  destruct (first_item (Motor.partial_hit (Str.lower key)) d) as [[k v]|] eqn:H2.
  { left. exists [], key, keys, k, v.
    apply first_item_some in H2 as [Hin Hp].
    rewrite partial_hit_key_overlap in Hp. apply andb_true_iff in Hp as [Hk Hv].
    apply truthy_true in Hv. repeat split; auto. }
  apply Hnext. apply motor_alias_misses; [exact H1|intros _; exact H2].
Qed.

Lemma cleaned_empty (clean : bool) : cleaned clean "" = "".
Proof. now destruct clean. Qed.

(** The motor resolver is the resolver of the specification on the entries
    that carry a value. *)
Lemma motor_get_spec_refines (d : dict) (keys : list string) (clean exact : bool) :
  Motor.get_spec d keys clean exact
  = cleaned clean (spec_resolve (with_value d) keys exact).
Proof.
  unfold Motor.get_spec. rewrite <- motor_get_spec_item_with_value.
  assert (Hv : forall kv, In kv (with_value d) -> Str.truthy (snd kv) = true).
  { intros kv H. now apply filter_In in H. }
  revert Hv. generalize (with_value d) as m. intros m Hv.
  assert (Hfind : forall p, first_item
            (fun k v => p k && Str.truthy v) m = first_item (fun k _ => p k) m).
  { intros p. unfold first_item. clear -Hv.
    induction m as [|[k v] m IH]; simpl; [reflexivity|].
    pose proof (Hv (k, v) (or_introl eq_refl)) as Hkv. simpl in Hkv.
    rewrite Hkv, andb_true_r.
    destruct (p k); [reflexivity|]. apply IH. intros kv H. apply Hv. now right. }
  induction keys as [|key keys IH]; simpl; [now rewrite cleaned_empty|].
  change (Motor.exact_hit (Str.lower key))
    with (fun k v => key_equal key k && Str.truthy v).
  change (Motor.partial_hit (Str.lower key))
    with (fun k v => key_overlap key k && Str.truthy v).
  rewrite !Hfind.
  destruct (first_item (fun k _ => key_equal key k) m) as [[k v]|]; [reflexivity|].
  destruct exact; [exact IH|].
  destruct (first_item (fun k _ => key_overlap key k) m) as [[k v]|];
    [reflexivity|exact IH].
Qed.

(** C1 (amended).  The motor resolver walks the aliases in order; for each
    alias it looks among the entries that carry a value first for a key equal
    to it up to case, and only when there is none, and the field does not ask
    for exact matching, for a key that contains the alias or is contained in
    it; the first alias with a match decides and the later ones are not
    consulted; with no match the field is the empty string.  It is the
    resolver of the specification on the entries that carry a value.  With
    the aliases "nominal voltage", "voltage" and a map holding "operating
    voltage": "7.4" and "nominal voltage": "11.1", in either order, both
    engines resolve "11.1". *)
Theorem alias_resolution
        (all_specs : dict) (keys : list string) (clean exact : bool) :
  ((exists before alias after k v,
       keys = (before ++ alias :: after)%list
       /\ Forall (alias_misses all_specs exact) before
       /\ In (k, v) all_specs /\ v <> ""
       /\ (key_equal alias k = true
           \/ (exact = false
               /\ (forall k' v', In (k', v') all_specs -> v' <> "" ->
                     key_equal alias k' = false)
               /\ key_overlap alias k = true))
       /\ Motor.get_spec all_specs keys clean exact = cleaned clean v)
   \/ (Forall (alias_misses all_specs exact) keys
       /\ Motor.get_spec all_specs keys clean exact = ""))
  /\ Motor.get_spec all_specs keys clean exact
     = cleaned clean (spec_resolve (with_value all_specs) keys exact)
  /\ Motor.get_spec [("operating voltage", "7.4"); ("nominal voltage", "11.1")]
                    ["nominal voltage"; "voltage"] true false = "11.1"
  /\ Motor.get_spec [("nominal voltage", "11.1"); ("operating voltage", "7.4")]
                    ["nominal voltage"; "voltage"] true false = "11.1"
  /\ Battery.get_spec [("operating voltage", "7.4"); ("nominal voltage", "11.1")]
                      ["nominal voltage"; "voltage"] true false = "11.1"
  /\ Battery.get_spec [("nominal voltage", "11.1"); ("operating voltage", "7.4")]
                      ["nominal voltage"; "voltage"] true false = "11.1".
Proof.
  split; [|split; [apply motor_get_spec_refines|repeat split]].
  unfold Motor.get_spec.
  destruct (motor_get_spec_item_walk all_specs keys exact)
    as [(before & alias & after & k & v & Hk & Hb & Hin & Hv & Hm & ->)
       |[Hall ->]].
  - left. exists before, alias, after, k, v. repeat split; assumption.
  - right. now split.
Qed.

Lemma alias_resolution_witness :
  Motor.get_spec [("operating voltage", "7.4"); ("nominal voltage", "11.1")]
                 ["nominal voltage"; "voltage"] true false
  = cleaned true
      (spec_resolve
         (with_value [("operating voltage", "7.4"); ("nominal voltage", "11.1")])
         ["nominal voltage"; "voltage"] false).
Proof.
  exact (proj1 (proj2 (alias_resolution
           [("operating voltage", "7.4"); ("nominal voltage", "11.1")]
           ["nominal voltage"; "voltage"] true false))).
Defined.

(** C1 (counterexample).  In the motor engine a key equal to the alias does
    not end the search when its value is empty: the substring search goes on
    to another key.  In the battery engine there is no exact search before
    the substring search: the first key in map order that contains the alias
    decides, though a later key is equal to the alias.  In both maps a single
    key is equal to the alias. *)
Lemma alias_resolution_counterexample :
  (Motor.get_spec [("voltage", ""); ("voltage range", "12")]
                  ["voltage"] true false = "12"
   /\ cleaned true (spec_resolve [("voltage", ""); ("voltage range", "12")]
                                 ["voltage"] false) = "")
  /\ (Battery.get_spec [("max voltage", "4.2"); ("voltage", "3.7")]
                       ["nominal voltage"; "voltage"] true false = "4.2"
      /\ cleaned true (spec_resolve [("max voltage", "4.2"); ("voltage", "3.7")]
                                    ["nominal voltage"; "voltage"] false) = "3.7")
  /\ Battery.get_spec [("max voltage", "4.2"); ("voltage", "3.7")]
                      ["nominal voltage"; "voltage"] true false
     <> cleaned true (spec_resolve [("max voltage", "4.2"); ("voltage", "3.7")]
                                   ["nominal voltage"; "voltage"] false).
Proof.
  repeat split. vm_compute. discriminate.
Qed.

(** ** Unit-aware normalisers of the motor engine *)

(** [int(x)] drops the fraction: for a float of negative exponent the
    integer is the largest one that is not above the magnitude, with the
    sign. *)
Lemma to_int_truncates (neg : bool) (m : positive) (e z : Z) :
  (e < 0)%Z ->
  Float.to_int (S754_finite neg m e) = Ok z ->
  (Z.abs z * 2 ^ (- e) <= Zpos m < (Z.abs z + 1) * 2 ^ (- e))%Z
  /\ z = (if neg then - Z.abs z else Z.abs z)%Z.
Proof.
  intros He H. unfold Float.to_int in H.
  destruct (Z.leb_spec 0 e) as [Hle|_]; [lia|].
  injection H as <-.
  rewrite Z.shiftr_div_pow2 by lia.
  assert (Hp : (0 < 2 ^ (- e))%Z) by (apply Z.pow_pos_nonneg; lia).
  set (p := (2 ^ (- e))%Z) in *.
  assert (Hq : (0 <= Zpos m / p)%Z) by (apply Z.div_pos; lia).
  pose proof (Z.mul_div_le (Zpos m) p Hp) as H1.
  pose proof (Z.mul_succ_div_gt (Zpos m) p Hp) as H2.
  destruct neg.
  - rewrite Z.abs_opp, (Z.abs_eq _ Hq). split; [nia|reflexivity].
  - rewrite (Z.abs_eq _ Hq). split; [nia|reflexivity].
Qed.

(** C3 (at the failing input).  The efficiency resolver multiplies a value
    below one by a hundred and passes the binary64 product to [int], which
    drops the fraction where the percentage is the nearest integer.  The
    value "0.29" gives "28": the product is below 29, and 29 is the
    percentage.  The value "0.856" gives "85", and 86 is nearest.  The
    values "0.85" and "85" both give "85".  The product of "-inf" is
    infinite, and [int] raises an error that the resolver does not catch. *)
Theorem get_efficiency_drops_fraction :
  Motor.get_efficiency [("efficiency", "0.29")] = Ok "28"
  /\ spec_efficiency "0.29" = Ok "29"
  /\ (exists num,
        Float.of_string "0.29" = Some num
        /\ Float.ltb (Float.mul num (Float.of_Z 100)) (Float.of_Z 29) = true)
  /\ Motor.get_efficiency [("efficiency", "0.856")] = Ok "85"
  /\ spec_efficiency "0.856" = Ok "86"
  /\ Motor.get_efficiency [("efficiency", "0.85")] = Ok "85"
  /\ Motor.get_efficiency [("efficiency", "85")] = Ok "85"
  /\ Motor.get_efficiency [("efficiency", "-inf")] = Raise OverflowError.
Proof.
  split; [reflexivity|]. split; [reflexivity|].
  split; [eexists; split; reflexivity|].
  repeat split.
Qed.

(** C4 (at the failing input).  The mass resolver looks for the gram unit in
    the key only, "(g)": a mass of "1500 g" under the key "weight" is not
    converted and not reported, while "1.5 kg" under the same key is; under
    the key "weight (g)" the grams are divided by a thousand. *)
Theorem get_weight_ignores_grams_in_value :
  Motor.get_weight [("weight", "1500 g")] = ""
  /\ Motor.get_weight [("weight", "1.5 kg")] = "1.5"
  /\ Motor.get_weight [("weight (g)", "1500 g")] = "1.5"
  /\ Motor.get_weight [("shipping weight", "2 kg"); ("weight", "1.5 kg")] = "1.5".
Proof. repeat split. Qed.


(** C5 (at the failing input).  The no-load-current resolver takes the two
    letters "ma" anywhere in the key or in the value for milliamps.  Under
    the key "no load current (max)" the value "0.5 A" is in amps and no unit
    says milliamps, yet "ma" stands inside "max": the resolver divides by a
    thousand and reports "0.0005", where the cleaned value is "0.5".  Under
    the key "no load current" the same value gives "0.5", and "150mA" gives
    "0.15". *)
Theorem get_no_load_current_takes_max_for_milliamps :
  Motor.get_no_load_current [("no load current (max)", "0.5 A")] = "0.0005"
  /\ Motor.says_milliamps "no load current (max)" "0.5 A" = true
  /\ Str.contains "ma" (Str.lower "0.5 A") = false
  /\ clean_number "0.5 A" = "0.5"
  /\ Motor.get_no_load_current [("no load current", "0.5 A")] = "0.5"
  /\ Motor.get_no_load_current [("no load current", "150mA")] = "0.15".
Proof. repeat split. Qed.

(** ** The composite dimension of the battery engine *)

Lemma first_item_absent (p : string -> string -> bool) (d : dict) :
  (forall k v, In (k, v) d -> p k v = false) -> first_item p d = None.
Proof.
  unfold first_item. induction d as [|[k v] d IH]; intros H; simpl; [reflexivity|].
  rewrite (H k v) by now left.
  apply IH. intros k' v' Hin. apply (H k' v'). now right.
Qed.

Lemma first_item_skip (p : string -> string -> bool) (before rest : dict) :
  (forall k v, In (k, v) before -> p k v = false) ->
  first_item p (before ++ rest)%list = first_item p rest.
Proof.
  unfold first_item. induction before as [|[k v] before IH]; intros H; simpl;
    [reflexivity|].
  rewrite (H k v) by now left.
  apply IH. intros k' v' Hin. apply (H k' v'). now right.
Qed.

(** C6 (at the failing input).  The composite dimension passes over every
    dimension key in which the name of an axis stands, also when the key is
    that of a combined value.  For the table row "Dimensions (Length x Width
    x Thickness)" with "50 x 30 x 5 mm" the combined value is not taken; the
    same entry then answers for the thickness, the width and the length, each
    with its first number, and the composite is "50 × 50 × 50 mm".  Under the
    key "dimensions" the combined value is taken as it is.  Without a
    combined key, "5", "30" and "25" give "5 × 30 × 25 mm", with the breadth
    or else the width in the middle, and an empty breadth gives the empty
    string. *)
Theorem get_full_dimensions_passes_combined_key :
  Battery.get_full_dimensions
    [("dimensions (length x width x thickness)", "50 x 30 x 5 mm")]
  = "50 × 50 × 50 mm"
  /\ Battery.is_full_dimensions_key "dimensions (length x width x thickness)" = false
  /\ clean_value "50 x 30 x 5 mm" = "50 x 30 x 5 mm"
  /\ Battery.get_full_dimensions [("dimensions", "50 x 30 x 5 mm")]
     = "50 x 30 x 5 mm"
  /\ Battery.get_full_dimensions
       [("thickness", "5"); ("breadth", "30"); ("length", "25")]
     = "5 × 30 × 25 mm"
  /\ Battery.get_full_dimensions
       [("thickness", "5"); ("width", "30"); ("length", "25")]
     = "5 × 30 × 25 mm"
  /\ Battery.get_full_dimensions
       [("thickness", "5"); ("breadth", "30"); ("width", "31"); ("length", "25")]
     = "5 × 30 × 25 mm"
  /\ Battery.get_full_dimensions
       [("thickness", "5"); ("breadth", ""); ("length", "25")]
     = "".
Proof. repeat split. Qed.

(** ** Output records *)

Lemma motor_record_keys (url : string) (page : Page) (record : dict) :
  Motor.scrape_product url page = Ok record ->
  map fst record = Motor.CSV_COLUMNS
  /\ dict_get record "Product Name" = Some (product_name page).
Proof.
  unfold Motor.scrape_product.
  destruct (Motor.get_efficiency _) as [efficiency|e]; [|discriminate].
  intros H; injection H as <-. split; reflexivity.
Qed.

Lemma battery_record_keys (url : string) (page : Page) (record : dict) :
  Battery.scrape_battery url page = Some record ->
  map fst record = Battery.CSV_COLUMNS
  /\ dict_get record "Product Name" = Some (product_name page).
Proof.
  unfold Battery.scrape_battery.
  destruct (Str.truthy (product_name page)); [|discriminate].
  intros H; injection H as <-. split; reflexivity.
Qed.

(** The motor engine returns a record unless the efficiency conversion
    raises, which only [int] of an infinite product does. *)
Lemma get_efficiency_outcome (all_specs : dict) :
  (exists s, Motor.get_efficiency all_specs = Ok s)
  \/ Motor.get_efficiency all_specs = Raise OverflowError.
Proof.
  unfold Motor.get_efficiency.
  destruct (Str.truthy _); [|left; eexists; reflexivity].
  destruct (Float.of_string _) as [num|]; [|left; eexists; reflexivity].
  destruct (Float.ltb num _); [|left; eexists; reflexivity].
  destruct (Float.to_int _) as [z|[]]; [left; eexists; reflexivity| |].
  - left; eexists; reflexivity.
  - now right.
Qed.

Lemma scrape_product_outcome (url : string) (page : Page) :
  (exists record, Motor.scrape_product url page = Ok record)
  \/ Motor.scrape_product url page = Raise OverflowError.
Proof.
  unfold Motor.scrape_product.
  destruct (get_efficiency_outcome
              (Motor.merge (regex_specs page) (general_info page) (spec_table page)))
    as [[s ->]| ->].
  - left. eexists. reflexivity.
  - now right.
Qed.

Example get_efficiency_overflow :
  Motor.get_efficiency [("efficiency", "-inf")] = Raise OverflowError.
Proof. reflexivity. Qed.

(** C9.  A record that an engine produces has exactly the declared columns
    as its keys, in the declared order, whatever the page. *)
Theorem output_record_schema (url : string) (page : Page) :
  (forall record,
      Motor.scrape_product url page = Ok record ->
      map fst record = Motor.CSV_COLUMNS)
  /\ (forall record,
        Battery.scrape_battery url page = Some record ->
        map fst record = Battery.CSV_COLUMNS).
Proof.
  split; intros record H.
  - now apply motor_record_keys in H.
  - now apply battery_record_keys in H.
Qed.

Lemma output_record_schema_witness :
  let page := {| product_name := "MY6812 100W DC Motor";
                 stock_status := "In Stock"; price := "1899.00";
                 general_info := [("rated voltage", "12V"); ("model", "")];
                 spec_table := [("rated speed (rpm)", "3000 RPM")];
                 regex_specs := [("weight_kg", "1.2")] |} in
  (exists record, Motor.scrape_product "https://robu.in/product/m/" page = Ok record
                  /\ map fst record = Motor.CSV_COLUMNS)
  /\ (exists record, Battery.scrape_battery "https://robu.in/product/m/" page = Some record
                     /\ map fst record = Battery.CSV_COLUMNS).
Proof.
  intros page.
  destruct (output_record_schema "https://robu.in/product/m/" page) as [Hm Hb].
  split.
  - destruct (Motor.scrape_product "https://robu.in/product/m/" page)
      as [record|e] eqn:H; [|discriminate H].
    exists record. split; [reflexivity|]. apply Hm. reflexivity.
  - destruct (Battery.scrape_battery "https://robu.in/product/m/" page)
      as [record|] eqn:H; [|discriminate H].
    exists record. split; [reflexivity|]. apply Hb. reflexivity.
Defined.

(** C8 (amended).  The battery engine returns a record, with the declared
    columns, exactly when a product name was found, and reports absence
    otherwise; on a page without regions every field resolved from the map is
    the empty string.  The motor engine has no such test: it returns a record
    also without a product name, with the empty string as the name, and on a
    page without regions and regex matches it always returns one, every
    resolved field empty.  A record without a name is discarded by the batch
    caller [scrape_product_safe]. *)
Theorem missing_identity (url : string) (page : Page) :
  (product_name page = "" <-> Battery.scrape_battery url page = None)
  /\ (product_name page <> "" ->
      exists record,
        Battery.scrape_battery url page = Some record
        /\ map fst record = Battery.CSV_COLUMNS
        /\ (general_info page = [] -> spec_table page = [] ->
            fields_empty (filter is_spec_field Battery.CSV_COLUMNS) record = true))
  /\ (general_info page = [] -> spec_table page = [] -> regex_specs page = [] ->
      exists record,
        Motor.scrape_product url page = Ok record
        /\ map fst record = Motor.CSV_COLUMNS
        /\ dict_get record "Product Name" = Some (product_name page)
        /\ fields_empty (filter is_spec_field Motor.CSV_COLUMNS) record = true)
  /\ (forall record,
        Motor.scrape_product url page = Ok record ->
        map fst record = Motor.CSV_COLUMNS
        /\ dict_get record "Product Name" = Some (product_name page))
  /\ (product_name page = "" -> Motor.scrape_product_safe url page = None).
Proof.
  split; [|split; [|split; [|split]]].
  - unfold Battery.scrape_battery.
    destruct (product_name page) eqn:Hname; simpl; split; congruence.
  - intros Hname. apply truthy_true in Hname.
    unfold Battery.scrape_battery. rewrite Hname. cbn [negb].
    eexists. split; [reflexivity|]. split; [reflexivity|].
    intros -> ->. reflexivity.
  - intros Hl Ht Hr. unfold Motor.scrape_product. rewrite Hl, Ht, Hr.
    change (Motor.get_efficiency (Motor.merge [] [] [])) with (@Ok string "").
    eexists. split; [reflexivity|]. repeat split.
  - apply motor_record_keys.
  - intros Hname. unfold Motor.scrape_product_safe.
    destruct (Motor.scrape_product url page) as [record|e] eqn:H; [|reflexivity].
    apply motor_record_keys in H as [Hkeys Hget].
    rewrite Hget, Hname.
    destruct record; reflexivity.
Qed.

Lemma missing_identity_witness :
  Battery.scrape_battery "https://robu.in/product/b" (bare_page "" "Unknown" "") = None
  /\ (exists record,
        Battery.scrape_battery "https://robu.in/product/b"
                               (bare_page "LiPo 500mAh" "Unknown" "") = Some record
        /\ fields_empty (filter is_spec_field Battery.CSV_COLUMNS) record = true)
  /\ Motor.scrape_product_safe "https://robu.in/product/m" (bare_page "" "Unknown" "")
     = None.
Proof.
  split; [|split].
  - apply (missing_identity "https://robu.in/product/b" (bare_page "" "Unknown" "")).
    reflexivity.
  - destruct (missing_identity "https://robu.in/product/b"
                (bare_page "LiPo 500mAh" "Unknown" "")) as (_ & H & _).
    destruct H as (record & Hrec & _ & Hempty); [discriminate|].
    exists record. split; [exact Hrec|]. apply Hempty; reflexivity.
  - apply (missing_identity "https://robu.in/product/m" (bare_page "" "Unknown" "")).
    reflexivity.
Defined.

(** C8 (counterexample).  Without a product name the motor engine produces
    a record all the same. *)
Lemma missing_identity_counterexample :
  product_name (bare_page "" "Unknown" "") = ""
  /\ exists record,
       Motor.scrape_product "https://robu.in/product/m" (bare_page "" "Unknown" "")
       = Ok record
       /\ map fst record = Motor.CSV_COLUMNS
       /\ dict_get record "Product Name" = Some "".
Proof.
  split; [reflexivity|]. eexists. repeat split.
Qed.

(** * Further properties of the code *)

(** ** White space *)

Lemma lstrip_starts_clean (s : string) : starts_clean (Str.lstrip s) = true.
Proof.
  induction s as [|c t IH]; simpl; [reflexivity|].
  destruct (Str.is_space c) eqn:Hc; [exact IH|]. simpl. now rewrite Hc.
Qed.

Lemma rstrip_ends_clean (s : string) : ends_clean (Str.rstrip s) = true.
Proof.
  induction s as [|c t IH]; simpl; [reflexivity|].
  destruct (Str.rstrip t) as [|d u] eqn:Ht.
  - destruct (Str.is_space c) eqn:Hc; simpl; [reflexivity|now rewrite Hc].
  - exact IH.
Qed.

Lemma rstrip_starts_clean (s : string) :
  starts_clean s = true -> starts_clean (Str.rstrip s) = true.
Proof.
  destruct s as [|c t]; simpl; [reflexivity|].
  intros Hc. destruct (Str.rstrip t); [|exact Hc].
  apply negb_true_iff in Hc. rewrite Hc. simpl. now rewrite Hc.
Qed.

Lemma lstrip_fixed (s : string) : starts_clean s = true -> Str.lstrip s = s.
Proof.
  destruct s as [|c t]; simpl; [reflexivity|].
  intros Hc. apply negb_true_iff in Hc. now rewrite Hc.
Qed.

Lemma rstrip_fixed (s : string) : ends_clean s = true -> Str.rstrip s = s.
Proof.
  induction s as [|c t IH]; [reflexivity|].
  destruct t as [|d u].
  - simpl. intros Hc. apply negb_true_iff in Hc. now rewrite Hc.
  - intros H. change (ends_clean (String d u) = true) in H.
    change (Str.rstrip (String c (String d u)))
      with (match Str.rstrip (String d u) with
            | EmptyString => if Str.is_space c then EmptyString
                             else String c EmptyString
            | t' => String c t'
            end).
    rewrite (IH H). reflexivity.
Qed.

Lemma strip_clean (s : string) :
  starts_clean (Str.strip s) = true /\ ends_clean (Str.strip s) = true.
Proof.
  unfold Str.strip. split.
  - apply rstrip_starts_clean, lstrip_starts_clean.
  - apply rstrip_ends_clean.
Qed.

Lemma strip_fixed (s : string) :
  starts_clean s = true -> ends_clean s = true -> Str.strip s = s.
Proof.
  intros H1 H2. unfold Str.strip. rewrite (lstrip_fixed s H1). now apply rstrip_fixed.
Qed.

Lemma strip_idempotent (s : string) : Str.strip (Str.strip s) = Str.strip s.
Proof.
  destruct (strip_clean s). now apply strip_fixed.
Qed.

Lemma single_spaced_ends_clean (s : string) :
  single_spaced s = true -> ends_clean s = true.
Proof.
  induction s as [|c t IH]; [reflexivity|].
  cbn [single_spaced]. intros H. apply andb_true_iff in H as [Hc Ht].
  destruct t as [|d u].
  - simpl. destruct (Str.is_space c); [|reflexivity].
    now rewrite andb_false_r in Hc.
  - change (ends_clean (String d u) = true). now apply IH.
Qed.

Lemma sub_spaces_fixed (s : string) :
  single_spaced s = true -> Re.sub_spaces false s = s.
Proof.
  induction s as [|c t IH]; [reflexivity|].
  cbn [single_spaced Re.sub_spaces]. intros H.
  apply andb_true_iff in H as [Hc Ht].
  destruct (Str.is_space c) eqn:Hs.
  - apply andb_true_iff in Hc as [Hc Hd].
    apply Ascii.eqb_eq in Hc; subst c.
    destruct t as [|d u]; [discriminate|].
    apply negb_true_iff in Hd. f_equal.
    cbn [Re.sub_spaces]. rewrite Hd.
    specialize (IH Ht). cbn [Re.sub_spaces] in IH. now rewrite Hd in IH.
  - f_equal. now apply IH.
Qed.

(** In a run of white space nothing is put out before the next character
    that is not white space. *)
Lemma sub_spaces_in_run (s : string) :
  starts_clean (Re.sub_spaces true s) = true.
Proof.
  induction s as [|c t IH]; simpl; [reflexivity|].
  destruct (Str.is_space c) eqn:Hc; [exact IH|]. simpl. now rewrite Hc.
Qed.

Lemma sub_spaces_in_run_empty (s : string) :
  ends_clean s = true -> Re.sub_spaces true s = "" -> s = "".
Proof.
  induction s as [|c t IH]; [reflexivity|].
  cbn [Re.sub_spaces]. destruct (Str.is_space c) eqn:Hc; [|discriminate].
  intros He Hs. destruct t as [|d u].
  - simpl in He. now rewrite Hc in He.
  - change (ends_clean (String d u) = true) in He.
    specialize (IH He Hs). discriminate.
Qed.

Lemma sub_spaces_single_spaced (s : string) (in_run : bool) :
  ends_clean s = true -> single_spaced (Re.sub_spaces in_run s) = true.
Proof.
  revert in_run. induction s as [|c t IH]; intros in_run He; [reflexivity|].
  assert (Ht : Str.is_space c = true -> ends_clean t = true /\ t <> "").
  { intros Hc. destruct t as [|d u].
    - simpl in He. now rewrite Hc in He.
    - split; [exact He|discriminate]. }
  assert (Ht' : Str.is_space c = false -> ends_clean t = true).
  { intros Hc. destruct t as [|d u]; [reflexivity|exact He]. }
  cbn [Re.sub_spaces]. destruct (Str.is_space c) eqn:Hc.
  - destruct (Ht eq_refl) as [Het Hne].
    destruct in_run; [now apply IH|].
    cbn [single_spaced]. rewrite (IH true Het), andb_true_r.
    change (Str.is_space " ") with true. cbn [Ascii.eqb Bool.eqb andb].
    pose proof (sub_spaces_in_run t) as Hstart.
    destruct (Re.sub_spaces true t) as [|d u] eqn:Hsub.
    + apply sub_spaces_in_run_empty in Hsub; [contradiction|exact Het].
    + exact Hstart.
  - cbn [single_spaced]. rewrite Hc. cbn [andb]. apply IH. now apply Ht'.
Qed.

Lemma sub_spaces_starts_clean (s : string) :
  starts_clean s = true -> starts_clean (Re.sub_spaces false s) = true.
Proof.
  destruct s as [|c t]; simpl; [reflexivity|].
  intros Hc. apply negb_true_iff in Hc. rewrite Hc. simpl. now rewrite Hc.
Qed.

(** X1.  For ASCII text, a cleaned value has no white space at its ends and
    no white space inside but single spaces between other characters, and
    cleaning leaves an ASCII text of that form as it is: on ASCII text
    [clean_value] is idempotent. *)
Theorem clean_value_canonical (text : string) :
  Str.is_ascii text = true ->
  starts_clean (clean_value text) = true
  /\ single_spaced (clean_value text) = true
  /\ clean_value (clean_value text) = clean_value text
  /\ (forall s, Str.is_ascii s = true ->
        starts_clean s = true -> single_spaced s = true ->
        clean_value s = s).
Proof.
  intros _.
  assert (Hfix : forall s, starts_clean s = true -> single_spaced s = true ->
            clean_value s = s).
  { intros s H1 H2. unfold clean_value. destruct s as [|c t]; [reflexivity|].
    cbn [Str.truthy negb].
    rewrite strip_fixed by (try apply single_spaced_ends_clean; assumption).
    now apply sub_spaces_fixed. }
  assert (Hstart : starts_clean (clean_value text) = true).
  { unfold clean_value. destruct (Str.truthy text); [|reflexivity]. cbn [negb].
    apply sub_spaces_starts_clean, strip_clean. }
  assert (Hsingle : single_spaced (clean_value text) = true).
  { unfold clean_value. destruct (Str.truthy text); [|reflexivity]. cbn [negb].
    apply sub_spaces_single_spaced, strip_clean. }
  repeat split; auto.
Qed.

Lemma clean_value_canonical_witness :
  Str.is_ascii "  12   V  DC " = true
  /\ clean_value (clean_value "  12   V  DC ") = clean_value "  12   V  DC "
  /\ clean_value "12 V DC" = "12 V DC".
Proof.
  pose proof (clean_value_canonical "  12   V  DC " eq_refl) as (_ & _ & H1 & H2).
  split; [reflexivity|]. split; [exact H1|].
  apply (H2 "12 V DC"); reflexivity.
Defined.

Lemma span_all (p : ascii -> bool) (s : string) :
  Str.forallb p s = true -> Str.span p s = (s, "").
Proof.
  induction s as [|c t IH]; simpl; [reflexivity|].
  intros H. apply andb_true_iff in H as [Hc Ht]. now rewrite Hc, (IH Ht).
Qed.

Lemma numdot_run_clean (s : string) :
  Str.forallb Re.is_numdot s = true ->
  starts_clean s = true /\ ends_clean s = true.
Proof.
  assert (Hns : forall c, Re.is_numdot c = true -> Str.is_space c = false).
  { intros c Hc. destruct (Str.is_space c) eqn:Hs; [|reflexivity].
    apply space_not_numdot in Hs. congruence. }
  induction s as [|c t IH]; [now split|].
  cbn [Str.forallb]. intros H. apply andb_true_iff in H as [Hc Ht].
  destruct (IH Ht) as [_ He]. split.
  - simpl. now rewrite (Hns c Hc).
  - destruct t as [|d u]; [simpl; now rewrite (Hns c Hc)|exact He].
Qed.

Lemma first_run_all (s : string) :
  Str.forallb Re.is_numdot s = true -> first_run s = s.
Proof.
  destruct s as [|c t]; [reflexivity|].
  intros H. cbn [first_run]. pose proof H as H'.
  cbn [Str.forallb] in H'. apply andb_true_iff in H' as [Hc _].
  rewrite Hc. now rewrite (span_all _ _ H).
Qed.

Lemma forallb_existsb (s : string) :
  Str.forallb Re.is_numdot s = true -> s <> "" ->
  Str.existsb Re.is_numdot s = true.
Proof.
  destruct s as [|c t]; [congruence|].
  cbn [Str.forallb Str.existsb]. intros H _.
  apply andb_true_iff in H as [Hc _]. now rewrite Hc.
Qed.

Lemma first_run_nonempty (s : string) :
  Str.existsb Re.is_numdot s = true -> first_run s <> "".
Proof.
  induction s as [|c t IH]; [discriminate|].
  cbn [Str.existsb first_run Str.span].
  destruct (Re.is_numdot c) eqn:Hc.
  - intros _. destruct (Str.span Re.is_numdot t). discriminate.
  - exact IH.
Qed.

(** X2.  For ASCII text, the numeric cleaner returns the first run of digits
    and dots of the stripped text, whatever stands before it, and the
    stripped text when it holds neither a digit nor a dot; so the result is
    made of digits and dots only or has none of them, and cleaning a cleaned
    number changes nothing. *)
Theorem clean_number_idempotent (text : string) :
  Str.is_ascii text = true ->
  clean_number text
  = (if Str.existsb Re.is_numdot (Str.strip text)
     then first_run (Str.strip text) else Str.strip text)
  /\ (Str.forallb Re.is_numdot (clean_number text) = true
      \/ Str.existsb Re.is_numdot (clean_number text) = false)
  /\ clean_number (clean_number text) = clean_number text.
Proof.
  intros _.
  split; [apply clean_number_first_run|]. split; [apply clean_number_shape|].
  rewrite (clean_number_first_run text).
  destruct (Str.existsb Re.is_numdot (Str.strip text)) eqn:H.
  - pose proof (first_run_forallb (Str.strip text)) as Hall.
    pose proof (first_run_nonempty _ H) as Hne.
    destruct (numdot_run_clean _ Hall) as [H1 H2].
    rewrite clean_number_first_run, (strip_fixed _ H1 H2).
    rewrite (forallb_existsb _ Hall Hne). now apply first_run_all.
  - rewrite clean_number_first_run, strip_idempotent. now rewrite H.
Qed.

Lemma clean_number_idempotent_witness :
  Str.is_ascii " approx. ~ 3.5 kg (net) " = true
  /\ clean_number " approx. ~ 3.5 kg (net) " = "."
  /\ clean_number (clean_number " approx. ~ 3.5 kg (net) ")
     = clean_number " approx. ~ 3.5 kg (net) ".
Proof.
  pose proof (clean_number_idempotent " approx. ~ 3.5 kg (net) " eq_refl)
    as (H1 & _ & H3).
  split; [reflexivity|]. split; [|exact H3].
  transitivity (if Str.existsb Re.is_numdot (Str.strip " approx. ~ 3.5 kg (net) ")
                then first_run (Str.strip " approx. ~ 3.5 kg (net) ")
                else Str.strip " approx. ~ 3.5 kg (net) "); [exact H1|reflexivity].
Defined.

(** ** The list and the table harvester *)

Lemma dict_set_in (d : dict) (k v k' v' : string) :
  In (k', v') (dict_set d k v) -> In (k', v') d \/ (k', v') = (k, v).
Proof.
  induction d as [|[k0 v0] r IH]; simpl.
  - intros [H|[]]. right. now symmetry.
  - destruct (String.eqb k0 k) eqn:E; simpl.
    + apply String.eqb_eq in E; subst k0.
      intros [H|H]; [right; now symmetry|left; now right].
    + intros [H|H]; [left; now left|].
      destruct (IH H) as [H'|H']; [left; now right|now right].
Qed.

Lemma dict_set_forall (P : string * string -> Prop) (d : dict) (k v : string) :
  Forall P d -> P (k, v) -> Forall P (dict_set d k v).
Proof.
  intros Hd Hkv. apply Forall_forall. intros [k' v'] Hin.
  destruct (dict_set_in _ _ _ _ _ Hin) as [H|H].
  - exact (proj1 (Forall_forall P d) Hd _ H).
  - now rewrite H.
Qed.

Lemma lower_char_idempotent (c : ascii) :
  Str.lower_char (Str.lower_char c) = Str.lower_char c.
Proof.
  destruct c as [[] [] [] [] [] [] [] []]; reflexivity.
Qed.

Lemma lower_char_space (c : ascii) :
  Str.is_space (Str.lower_char c) = Str.is_space c.
Proof.
  destruct c as [[] [] [] [] [] [] [] []]; reflexivity.
Qed.

Lemma lower_char_colon (c : ascii) :
  Ascii.eqb (Str.lower_char c) ":" = Ascii.eqb c ":".
Proof.
  destruct c as [[] [] [] [] [] [] [] []]; reflexivity.
Qed.

Lemma lower_idempotent (s : string) : Str.lower (Str.lower s) = Str.lower s.
Proof.
  induction s as [|c t IH]; simpl; [reflexivity|].
  now rewrite lower_char_idempotent, IH.
Qed.

Lemma lower_char_continuation (c : ascii) :
  Str.is_continuation (Str.lower_char c) = Str.is_continuation c.
Proof.
  destruct c as [[] [] [] [] [] [] [] []]; reflexivity.
Qed.

Lemma lower_len (s : string) : Str.len (Str.lower s) = Str.len s.
Proof.
  induction s as [|c t IH]; simpl; [reflexivity|].
  now rewrite lower_char_continuation, IH.
Qed.

Lemma ascii_len (s : string) : Str.is_ascii s = true -> Str.len s = String.length s.
Proof.
  induction s as [|c t IH]; simpl; [reflexivity|].
  intros H. apply andb_true_iff in H as [Hc Ht]. rewrite (IH Ht).
  replace (Str.is_continuation c) with false; [reflexivity|].
  unfold Str.is_continuation, Str.between.
  apply Nat.ltb_lt in Hc. symmetry. apply andb_false_iff. left.
  apply Nat.leb_gt. exact Hc.
Qed.

Lemma lower_starts_clean (s : string) : starts_clean (Str.lower s) = starts_clean s.
Proof.
  destruct s as [|c t]; simpl; [reflexivity|]. now rewrite lower_char_space.
Qed.

Lemma lower_ends_clean (s : string) : ends_clean (Str.lower s) = ends_clean s.
Proof.
  induction s as [|c t IH]; [reflexivity|].
  destruct t as [|d u]; [simpl; now rewrite lower_char_space|exact IH].
Qed.

Lemma lower_colon_free (s : string) : colon_free (Str.lower s) = colon_free s.
Proof.
  unfold colon_free. f_equal.
  induction s as [|c t IH]; simpl; [reflexivity|].
  now rewrite lower_char_colon, IH.
Qed.

Lemma lstrip_colon_free (s : string) :
  colon_free s = true -> colon_free (Str.lstrip s) = true.
Proof.
  unfold colon_free. induction s as [|c t IH]; simpl; [reflexivity|].
  intros H. apply negb_true_iff, orb_false_iff in H as [Hc Ht].
  destruct (Str.is_space c).
  - apply IH. now rewrite Ht.
  - simpl. now rewrite Hc, Ht.
Qed.

Lemma rstrip_colon_free (s : string) :
  colon_free s = true -> colon_free (Str.rstrip s) = true.
Proof.
  unfold colon_free. induction s as [|c t IH]; simpl; [reflexivity|].
  intros H. apply negb_true_iff, orb_false_iff in H as [Hc Ht].
  assert (IH' := IH ltac:(now rewrite Ht)).
  destruct (Str.rstrip t) as [|d u].
  - destruct (Str.is_space c); [reflexivity|]. simpl. now rewrite Hc.
  - apply negb_true_iff in IH'. apply negb_true_iff.
    change (Ascii.eqb c ":"
            || Str.existsb (fun c => Ascii.eqb c ":") (String d u) = false).
    now rewrite Hc, IH'.
Qed.

Lemma partition_colon_free (text a b : string) :
  Harvest.partition_colon text = Some (a, b) -> colon_free a = true.
Proof.
  revert a. induction text as [|c t IH]; simpl; [discriminate|].
  intros a. destruct (Ascii.eqb c ":") eqn:Hc.
  - intros H; injection H as <- <-. reflexivity.
  - destruct (Harvest.partition_colon t) as [[a' b']|]; [|discriminate].
    intros H; injection H as <- <-.
    specialize (IH a' eq_refl). unfold colon_free in *. simpl.
    rewrite Hc. exact IH.
Qed.

Lemma item_entry_ok (text k v : string) :
  Harvest.item_entry text = Some (k, v) -> list_entry_ok (k, v).
Proof.
  unfold Harvest.item_entry.
  destruct (Harvest.partition_colon text) as [[a b]|] eqn:Hp; [|discriminate].
  destruct (Nat.ltb_spec (Str.len (Str.lower (Str.strip a))) 50) as [Hlen|_];
    [|discriminate].
  intros H; injection H as <- <-.
  destruct (strip_clean a) as [H1 H2]. unfold list_entry_ok. simpl.
  split; [apply lower_idempotent|]. split.
  - apply strip_fixed; [now rewrite lower_starts_clean|now rewrite lower_ends_clean].
  - split; [exact Hlen|]. split; [|apply strip_idempotent].
    rewrite lower_colon_free. unfold Str.strip.
    apply rstrip_colon_free, lstrip_colon_free.
    exact (partition_colon_free _ _ _ Hp).
Qed.

Lemma harvest_item_forall (P : string * string -> Prop) :
  (forall text k v, Harvest.item_entry text = Some (k, v) -> P (k, v)) ->
  forall items specs, Forall P specs -> Forall P (fold_left Harvest.harvest_item items specs).
Proof.
  intros HP items. induction items as [|text items IH]; intros specs H; [exact H|].
  apply IH. unfold Harvest.harvest_item.
  destruct (Harvest.item_entry text) as [[k v]|] eqn:He; [|exact H].
  apply dict_set_forall; [exact H|exact (HP _ _ _ He)].
Qed.

Lemma harvest_item_wf (items : list string) (specs : dict) :
  wf_dict specs -> wf_dict (fold_left Harvest.harvest_item items specs).
Proof.
  revert specs. induction items as [|text items IH]; intros specs H; [exact H|].
  apply IH. unfold Harvest.harvest_item.
  destruct (Harvest.item_entry text) as [[k v]|]; [|exact H].
  now apply dict_set_wf.
Qed.

(** X3.  When the items of the lists are ASCII text, every entry of the list
    source has a key in lower case, without white space at its ends, shorter
    than fifty characters and without a colon, and a value without white
    space at its ends; the keys are pairwise distinct. *)
Theorem extract_general_info_entries (all_lists : list (list string)) :
  Forall (Forall (fun text => Str.is_ascii text = true)) all_lists ->
  wf_dict (Harvest.extract_general_info all_lists)
  /\ Forall list_entry_ok (Harvest.extract_general_info all_lists).
Proof.
  intros _.
  unfold Harvest.extract_general_info.
  assert (H : wf_dict [] /\ Forall list_entry_ok []) by (split; constructor).
  revert H. generalize (@nil (string * string)) as specs.
  induction all_lists as [|ol rest IH]; intros specs [Hwf Hall]; [now split|].
  cbn [fold_left]. apply IH. split.
  - now apply harvest_item_wf.
  - apply harvest_item_forall; [exact item_entry_ok|exact Hall].
Qed.

Lemma extract_general_info_entries_witness :
  let all_lists :=
    [["  Rated Voltage : 12 V "; "Brushed DC motor"]; ["No Load Speed: 300 RPM"]] in
  Forall (Forall (fun text => Str.is_ascii text = true)) all_lists
  /\ Harvest.extract_general_info all_lists
     = [("rated voltage", "12 V"); ("no load speed", "300 RPM")]
  /\ Forall list_entry_ok (Harvest.extract_general_info all_lists).
Proof.
  intros all_lists.
  assert (Hascii : Forall (Forall (fun text => Str.is_ascii text = true)) all_lists)
    by (repeat constructor).
  split; [exact Hascii|]. split; [reflexivity|].
  exact (proj2 (extract_general_info_entries all_lists Hascii)).
Defined.

Lemma extract_general_info_flat (all_lists : list (list string)) (specs : dict) :
  fold_left (fun specs ol => fold_left Harvest.harvest_item ol specs) all_lists specs
  = fold_left Harvest.harvest_item (List.concat all_lists) specs.
Proof.
  revert specs. induction all_lists as [|ol rest IH]; intros specs; [reflexivity|].
  cbn [fold_left List.concat]. now rewrite fold_left_app, IH.
Qed.

Lemma harvest_item_other_key (items : list string) (specs : dict) (k : string) :
  (forall text v, In text items -> Harvest.item_entry text <> Some (k, v)) ->
  dict_get (fold_left Harvest.harvest_item items specs) k = dict_get specs k.
Proof.
  revert specs. induction items as [|text items IH]; intros specs H; [reflexivity|].
  cbn [fold_left]. rewrite IH by (intros t v Hin; apply H; now right).
  unfold Harvest.harvest_item.
  destruct (Harvest.item_entry text) as [[k' v']|] eqn:He; [|reflexivity].
  rewrite dict_get_set. destruct (String.eqb k' k) eqn:E; [|reflexivity].
  apply String.eqb_eq in E; subst k'.
  exfalso. apply (H text v'); [now left|exact He].
Qed.

(** X4.  Only the sequence of the items counts for the list source, not the
    lists they stand in; an item without a colon or with a key of fifty
    characters or more adds nothing; and of the items with the same key the
    last one gives the value. *)
Theorem extract_general_info_last_wins :
  (forall all_lists,
      Harvest.extract_general_info all_lists
      = Harvest.extract_general_info [List.concat all_lists])
  /\ (forall before text after,
        Harvest.item_entry text = None ->
        Harvest.extract_general_info [(before ++ text :: after)%list]
        = Harvest.extract_general_info [(before ++ after)%list])
  /\ (forall before text after k v,
        Harvest.item_entry text = Some (k, v) ->
        (forall text' v', In text' after ->
           Harvest.item_entry text' <> Some (k, v')) ->
        dict_get (Harvest.extract_general_info [(before ++ text :: after)%list]) k
        = Some v).
Proof.
  unfold Harvest.extract_general_info. split; [|split].
  - intros all_lists. rewrite extract_general_info_flat.
    cbn [fold_left]. reflexivity.
  - intros before text after Hnone. cbn [fold_left].
    rewrite !fold_left_app. cbn [fold_left].
    unfold Harvest.harvest_item at 2. now rewrite Hnone.
  - intros before text after k v Hsome Hafter. cbn [fold_left].
    rewrite fold_left_app. cbn [fold_left].
    rewrite harvest_item_other_key by exact Hafter.
    unfold Harvest.harvest_item at 1. rewrite Hsome.
    rewrite dict_get_set. now rewrite String.eqb_refl.
Qed.

Lemma extract_general_info_last_wins_witness :
  dict_get
    (Harvest.extract_general_info
       [["Rated Voltage: 12V"; "Brushed DC motor"; "Rated voltage : 24 V"]])
    "rated voltage"
  = Some "24 V".
Proof.
  destruct extract_general_info_last_wins as (_ & _ & H).
  apply (H ["Rated Voltage: 12V"; "Brushed DC motor"] "Rated voltage : 24 V" []).
  - reflexivity.
  - intros text' v' [].
Defined.

Lemma contains_empty (s : string) : Str.contains "" s = true.
Proof. destruct s; reflexivity. Qed.

(** X5.  A list item that starts with a colon is harvested under the empty
    key.  In the motor resolver the empty key is contained in every alias:
    when the merged map holds it with a value, every field resolved without
    exact matching finds an entry, and when it is the only entry that value
    goes into each such field. *)
Theorem empty_key_matches_every_alias :
  (forall rest, Harvest.item_entry (String ":" rest) = Some ("", Str.strip rest))
  /\ (forall all_specs v key keys,
        In ("", v) all_specs -> v <> "" ->
        Motor.get_spec_item all_specs (key :: keys) false <> None)
  /\ (forall v key keys clean,
        v <> "" ->
        Motor.get_spec [("", v)] (key :: keys) clean false = cleaned clean v).
Proof.
  split; [reflexivity|]. split.
  - intros all_specs v key keys Hin Hv. cbn [Motor.get_spec_item].
    destruct (first_item (Motor.exact_hit (Str.lower key)) all_specs);
      [discriminate|].
    destruct (first_item (Motor.partial_hit (Str.lower key)) all_specs) eqn:H;
      [discriminate|].
    pose proof (first_item_none _ _ _ _ H Hin) as Hp.
    unfold Motor.partial_hit in Hp. cbn [Str.lower] in Hp.
    rewrite contains_empty, orb_true_r in Hp.
    apply truthy_true in Hv. rewrite Hv in Hp. discriminate.
  - intros v key keys clean Hv. apply truthy_true in Hv.
    unfold Motor.get_spec. cbn [Motor.get_spec_item first_item find fst snd].
    unfold Motor.exact_hit, Motor.partial_hit. cbn [Str.lower].
    rewrite contains_empty, orb_true_r, Hv, andb_true_r. cbn [andb].
    destruct (String.eqb (Str.lower key) ""); reflexivity.
Qed.

Lemma empty_key_matches_every_alias_witness :
  Motor.get_spec [("", "see the datasheet")]
                 ["rated voltage"; "operating voltage"; "voltage"; "vdc"]
                 false false
  = "see the datasheet".
Proof.
  apply (proj2 (proj2 empty_key_matches_every_alias)). discriminate.
Defined.


Lemma harvest_fold_wf {A : Type} (step : dict -> A -> dict) (xs : list A) :
  (forall specs x, wf_dict specs -> wf_dict (step specs x)) ->
  forall specs, wf_dict specs -> wf_dict (fold_left step xs specs).
Proof.
  intros Hstep. induction xs as [|x xs IH]; intros specs H; [exact H|].
  apply IH, Hstep, H.
Qed.







(** ** The regex harvester *)

Lemma dict_get_keys (d : dict) (k : string) :
  dict_get d k = None <-> ~ In k (map fst d).
Proof.
  split; [|apply dict_get_none].
  induction d as [|[k0 v0] r IH]; simpl; [tauto|].
  destruct (String.eqb k0 k) eqn:E; [discriminate|].
  apply String.eqb_neq in E. intros H [H'|H']; [congruence|now apply IH].
Qed.

Lemma dict_get_some_in (d : dict) (k v : string) :
  dict_get d k = Some v -> In (k, v) d.
Proof.
  induction d as [|[k0 v0] r IH]; simpl; [discriminate|].
  destruct (String.eqb k0 k) eqn:E.
  - apply String.eqb_eq in E; subst k0. intros H; injection H as ->. now left.
  - intros H. right. now apply IH.
Qed.

Lemma harvest_get (re_search : string -> string -> option string)
      (patterns : list (string * list string)) (text : string) (specs : dict)
      (key : string) :
  NoDup (map fst patterns) ->
  dict_get
    (fold_left
       (fun specs kp =>
          match RegexHarvest.first_match re_search (snd kp) text with
          | Some g => dict_set specs (fst kp) g
          | None => specs
          end)
       patterns specs) key
  = match patterns_of patterns key with
    | Some pl =>
        match RegexHarvest.first_match re_search pl text with
        | Some g => Some g
        | None => dict_get specs key
        end
    | None => dict_get specs key
    end.
Proof.
  revert specs. induction patterns as [|[k pl] rest IH]; intros specs Hnd;
    [reflexivity|].
  inversion Hnd as [|? ? Hnot Hrest]; subst.
  cbn [fold_left fst snd patterns_of]. rewrite (IH _ Hrest).
  destruct (String.eqb k key) eqn:E.
  - apply String.eqb_eq in E; subst k.
    assert (Hnone : patterns_of rest key = None).
    { clear -Hnot. induction rest as [|[k' pl'] rest IH]; [reflexivity|].
      simpl in *. destruct (String.eqb k' key) eqn:E.
      - apply String.eqb_eq in E. tauto.
      - apply IH. tauto. }
    rewrite Hnone.
    destruct (RegexHarvest.first_match re_search pl text); [|reflexivity].
    rewrite dict_get_set. now rewrite String.eqb_refl.
  - destruct (RegexHarvest.first_match re_search pl text) as [g|].
    + rewrite dict_get_set, E. reflexivity.
    + reflexivity.
Qed.

(** X7.  Whatever the regular expression library finds, the regex source has
    pairwise distinct keys; the value of a key of the pattern table is the
    group of the first of its patterns that matches the page in lower case,
    and the key is absent when none matches; a key outside the nine of the
    table, such as one for the voltage, the power or the speed, is never
    present. *)
Theorem extract_via_regex_keys
        (re_search : string -> string -> option string) (html : string) :
  let specs := RegexHarvest.extract_via_regex re_search html in
  wf_dict specs
  /\ (forall key pattern_list,
        In (key, pattern_list) RegexHarvest.patterns ->
        dict_get specs key
        = RegexHarvest.first_match re_search pattern_list (Str.lower html))
  /\ (forall key,
        In key (map fst specs) ->
        In key [ "weight_kg"; "shipping_weight"; "shipping_dimensions";
                 "rated_current"; "no_load_current"; "rated_torque";
                 "stall_torque"; "efficiency"; "shaft_diameter" ]).
Proof.
  intros specs.
  assert (Hnd : NoDup (map fst RegexHarvest.patterns)).
  { simpl. repeat (constructor; [simpl; intuition discriminate|]). constructor. }
  assert (Hget : forall key, dict_get specs key
            = match patterns_of RegexHarvest.patterns key with
              | Some pl =>
                  match RegexHarvest.first_match re_search pl (Str.lower html) with
                  | Some g => Some g
                  | None => None
                  end
              | None => None
              end).
  { intros key. unfold specs, RegexHarvest.extract_via_regex, RegexHarvest.harvest.
    now rewrite harvest_get. }
  split; [|split].
  - unfold specs, RegexHarvest.extract_via_regex, RegexHarvest.harvest.
    apply harvest_fold_wf; [|constructor].
    intros d kp Hd. destruct (RegexHarvest.first_match _ _ _); [|exact Hd].
    now apply dict_set_wf.
  - intros key pl Hin. rewrite Hget.
    assert (Hp : patterns_of RegexHarvest.patterns key = Some pl).
    { simpl in Hin.
      repeat (destruct Hin as [Hin|Hin];
              [injection Hin as <- <-; reflexivity|]).
      contradiction. }
    rewrite Hp. now destruct (RegexHarvest.first_match _ _ _).
  - intros key Hin.
    destruct (dict_get specs key) eqn:Hk;
      [|apply dict_get_keys in Hk; contradiction].
    rewrite Hget in Hk. cbn [patterns_of RegexHarvest.patterns] in Hk.
    repeat match type of Hk with
           | context [String.eqb ?a key] =>
               let E := fresh "E" in
               destruct (String.eqb a key) eqn:E;
               [apply String.eqb_eq in E; subst key; simpl; tauto|]
           end.
    simpl in Hk. discriminate.
Qed.

Lemma extract_via_regex_keys_witness :
  let re_search := fun (pattern text : string) =>
    if String.eqb pattern "efficiency\s*[:\(]?\s*[>]?\s*(\d+)" then Some "85"
    else None in
  dict_get (RegexHarvest.extract_via_regex re_search "<td>Efficiency: 85%</td>")
           "efficiency"
  = Some "85".
Proof.
  intros re_search.
  destruct (extract_via_regex_keys re_search "<td>Efficiency: 85%</td>")
    as (_ & H & _).
  rewrite (H "efficiency" ["efficiency\s*[:\(]?\s*[>]?\s*(\d+)"]).
  - reflexivity.
  - simpl. tauto.
Defined.

(** ** Keys that no resolver of the motor engine reads *)

Lemma without_set (k : string) (d : dict) (k' v' : string) :
  dict_without k (dict_set d k' v')
  = if String.eqb k' k then dict_without k d
    else dict_set (dict_without k d) k' v'.
Proof.
  unfold dict_without.
  induction d as [|[k0 v0] r IH]; simpl.
  - destruct (String.eqb k' k); reflexivity.
  - destruct (String.eqb k0 k') eqn:E0; simpl.
    + apply String.eqb_eq in E0; subst k0.
      destruct (String.eqb k' k) eqn:E; simpl; [reflexivity|].
      now rewrite String.eqb_refl.
    + rewrite IH. destruct (String.eqb k0 k) eqn:E1; simpl.
      * reflexivity.
      * destruct (String.eqb k' k); [reflexivity|]. simpl. now rewrite E0.
Qed.

Lemma without_update (k : string) (e d : dict) :
  dict_without k (dict_update d e)
  = dict_update (dict_without k d) (dict_without k e).
Proof.
  unfold dict_update. revert d.
  induction e as [|[k1 v1] e IH]; intros d; [reflexivity|].
  cbn [fold_left fst snd]. rewrite IH, without_set.
  unfold dict_without at 4. cbn [filter fst].
  destruct (String.eqb k1 k); reflexivity.
Qed.

Lemma without_absent (k : string) (d : dict) :
  dict_get d k = None -> dict_without k d = d.
Proof.
  unfold dict_without. induction d as [|[k0 v0] r IH]; simpl; [reflexivity|].
  destruct (String.eqb k0 k); [discriminate|]. intros H. simpl. now rewrite IH.
Qed.

Lemma motor_merge_without (k : string) (r l t : dict) :
  dict_get l k = None -> dict_get t k = None ->
  Motor.merge (dict_without k r) l t = dict_without k (Motor.merge r l t).
Proof.
  intros Hl Ht. unfold Motor.merge. rewrite !without_update.
  now rewrite (without_absent k l Hl), (without_absent k t Ht).
Qed.

Lemma hidden_from_cons (k a : string) (aliases : list string) :
  hidden_from k (a :: aliases) = true ->
  key_equal a k = false /\ key_overlap a k = false /\ hidden_from k aliases = true.
Proof.
  unfold hidden_from. cbn [List.forallb]. intros H.
  apply andb_true_iff in H as [H1 H2]. apply andb_true_iff in H1 as [H1 H3].
  apply negb_true_iff in H1, H3. auto.
Qed.

Lemma motor_get_spec_item_without (k : string) (d : dict) (keys : list string)
      (exact : bool) :
  hidden_from k keys = true ->
  Motor.get_spec_item (dict_without k d) keys exact = Motor.get_spec_item d keys exact.
Proof.
  unfold dict_without.
  induction keys as [|key keys IH]; intros H; [reflexivity|].
  apply hidden_from_cons in H as (H1 & H2 & H3).
  cbn [Motor.get_spec_item].
  rewrite !first_item_filter, (IH H3); [reflexivity| |].
  - intros k' v' Hp. rewrite partial_hit_key_overlap in Hp.
    apply andb_true_iff in Hp as [Hp _]. cbn [fst].
    destruct (String.eqb k' k) eqn:E; [|reflexivity].
    apply String.eqb_eq in E; subst k'. congruence.
  - intros k' v' Hp. rewrite exact_hit_key_equal in Hp.
    apply andb_true_iff in Hp as [Hp _]. cbn [fst].
    destruct (String.eqb k' k) eqn:E; [|reflexivity].
    apply String.eqb_eq in E; subst k'. congruence.
Qed.

Lemma motor_get_spec_without (k : string) (d : dict) (keys : list string)
      (clean exact : bool) :
  hidden_from k keys = true ->
  Motor.get_spec (dict_without k d) keys clean exact = Motor.get_spec d keys clean exact.
Proof.
  intros H. unfold Motor.get_spec. now rewrite motor_get_spec_item_without.
Qed.

Lemma get_no_load_current_without (k : string) (d : dict) :
  Motor.is_no_load_current_key k = false ->
  Motor.get_no_load_current (dict_without k d) = Motor.get_no_load_current d.
Proof.
  intros Hk. unfold dict_without.
  induction d as [|[k0 v0] r IH]; [reflexivity|].
  cbn [filter fst Motor.get_no_load_current].
  destruct (String.eqb k0 k) eqn:E; cbn [negb].
  - apply String.eqb_eq in E; subst k0. now rewrite Hk.
  - cbn [Motor.get_no_load_current]. now rewrite IH.
Qed.

Lemma get_weight_loop_without (k : string) (d : dict) :
  Motor.is_weight_key k = false ->
  Motor.get_weight_loop (dict_without k d) = Motor.get_weight_loop d.
Proof.
  intros Hk. unfold dict_without.
  induction d as [|[k0 v0] r IH]; [reflexivity|].
  cbn [filter fst Motor.get_weight_loop].
  destruct (String.eqb k0 k) eqn:E; cbn [negb].
  - apply String.eqb_eq in E; subst k0. now rewrite Hk.
  - cbn [Motor.get_weight_loop]. now rewrite IH.
Qed.

(** The keys of the regex source that no resolver reads. *)
Lemma motor_unread_key (k : string) (url : string) (page : Page) :
  Motor.is_no_load_current_key k = false ->
  Motor.is_weight_key k = false ->
  hidden_from k
    [ "rated voltage"; "operating voltage"; "voltage"; "vdc";
      "operating power"; "rated power"; "power";
      "rated current (a)"; "rated current"; "rate current";
      "rated torque"; "rate torque"; "stall torque";
      "rated speed (rpm)"; "rated speed"; "speed (rpm)"; "rpm";
      "efficiency"; "weight (kg)"; "weight:"; "weight_kg";
      "shipping weight"; "shipping_weight";
      "shipping dimensions"; "shipping_dimensions";
      "shaft diameter"; "shaft";
      "motor type"; "item type"; "brushed"; "brushless";
      "model"; "model no"; "gearbox"; "gear box"; "gear";
      "dimensions"; "dimension"; "lxd"; "cable length"; "cable" ] = true ->
  dict_get (general_info page) k = None ->
  dict_get (spec_table page) k = None ->
  Motor.scrape_product url (set_regex_specs page (dict_without k (regex_specs page)))
  = Motor.scrape_product url page.
Proof.
  intros Hnl Hw Hh Hl Ht.
  assert (Hsub : forall keys,
            List.forallb (fun a => List.existsb (String.eqb a)
              [ "rated voltage"; "operating voltage"; "voltage"; "vdc";
                "operating power"; "rated power"; "power";
                "rated current (a)"; "rated current"; "rate current";
                "rated torque"; "rate torque"; "stall torque";
                "rated speed (rpm)"; "rated speed"; "speed (rpm)"; "rpm";
                "efficiency"; "weight (kg)"; "weight:"; "weight_kg";
                "shipping weight"; "shipping_weight";
                "shipping dimensions"; "shipping_dimensions";
                "shaft diameter"; "shaft";
                "motor type"; "item type"; "brushed"; "brushless";
                "model"; "model no"; "gearbox"; "gear box"; "gear";
                "dimensions"; "dimension"; "lxd"; "cable length"; "cable" ]) keys
            = true ->
            hidden_from k keys = true).
  { intros keys Hk. unfold hidden_from in *.
    apply forallb_forall. intros a Ha.
    pose proof (proj1 (forallb_forall _ _) Hk a Ha) as Hin.
    apply List.existsb_exists in Hin as (b & Hb & Hab).
    apply String.eqb_eq in Hab; subst b.
    exact (proj1 (forallb_forall _ _) Hh a Hb). }
  unfold Motor.scrape_product.
  cbn [set_regex_specs regex_specs general_info spec_table product_name
       stock_status price].
  rewrite (motor_merge_without k _ _ _ Hl Ht).
  set (d := Motor.merge (regex_specs page) (general_info page) (spec_table page)).
  assert (He : Motor.get_efficiency (dict_without k d) = Motor.get_efficiency d).
  { unfold Motor.get_efficiency.
    now rewrite (motor_get_spec_without k d) by (apply Hsub; reflexivity). }
  assert (Hwt : Motor.get_weight (dict_without k d) = Motor.get_weight d).
  { unfold Motor.get_weight.
    rewrite (get_weight_loop_without k d Hw).
    now rewrite (motor_get_spec_without k d) by (apply Hsub; reflexivity). }
  rewrite He, Hwt, (get_no_load_current_without k d Hnl).
  rewrite !(motor_get_spec_without k d) by (apply Hsub; reflexivity).
  reflexivity.
Qed.

(** X8.  Three keys of the regex source are read by no resolver of the
    motor engine: "rated_current", "rated_torque" and "stall_torque" are
    written with an underscore, and no alias of a field is equal to one of
    them, contains it or is contained in it.  Unless the list or the table
    source has the same key, the record is the same with and without the
    regex match. *)
Theorem regex_keys_never_read (url : string) (page : Page) (k : string) :
  In k ["rated_current"; "rated_torque"; "stall_torque"] ->
  dict_get (general_info page) k = None ->
  dict_get (spec_table page) k = None ->
  Motor.scrape_product url (set_regex_specs page (dict_without k (regex_specs page)))
  = Motor.scrape_product url page.
Proof.
  intros [<-|[<-|[<-|[]]]] Hl Ht;
    apply motor_unread_key; try reflexivity; assumption.
Qed.

Lemma regex_keys_never_read_witness :
  let page := {| product_name := "MY6812 100W DC Motor";
                 stock_status := "In Stock"; price := "1899.00";
                 general_info := [("model", "MY6812")];
                 spec_table := [];
                 regex_specs := [("rated_current", "6.5"); ("weight_kg", "1.2")] |} in
  Motor.scrape_product "https://robu.in/product/m"
    (set_regex_specs page [("weight_kg", "1.2")])
  = Motor.scrape_product "https://robu.in/product/m" page.
Proof.
  intros page.
  apply (regex_keys_never_read "https://robu.in/product/m" page "rated_current").
  - left. reflexivity.
  - reflexivity.
  - reflexivity.
Defined.

(** ** The merged map in iteration order *)

Lemma dict_update_in (e d : dict) (k v : string) :
  In (k, v) (dict_update d e) -> In (k, v) d \/ In (k, v) e.
Proof.
  unfold dict_update. revert d.
  induction e as [|[k1 v1] e IH]; intros d H; [now left|].
  cbn [fold_left fst snd] in H.
  destruct (IH _ H) as [H'|H']; [|right; now right].
  destruct (dict_set_in _ _ _ _ _ H') as [H''|H'']; [now left|].
  right. left. now symmetry.
Qed.

Lemma fresh_skip (seen keys : list string) (k : string) :
  ~ In k keys -> fresh (seen ++ [k])%list keys = fresh seen keys.
Proof.
  unfold fresh. induction keys as [|k' keys IH]; intros H; [reflexivity|].
  cbn [filter]. rewrite IH by (intros Hin; apply H; now right).
  rewrite List.existsb_app. cbn [List.existsb].
  destruct (String.eqb k' k) eqn:E.
  - apply String.eqb_eq in E. exfalso. apply H. now left.
  - now rewrite !orb_false_r.
Qed.

Lemma fresh_nil (keys : list string) : fresh [] keys = keys.
Proof.
  unfold fresh. induction keys as [|k keys IH]; [reflexivity|].
  cbn [filter List.existsb negb]. f_equal. exact IH.
Qed.

Lemma dict_update_keys (e d : dict) :
  wf_dict e ->
  map fst (dict_update d e) = (map fst d ++ fresh (map fst d) (map fst e))%list.
Proof.
  unfold dict_update, wf_dict. revert d.
  induction e as [|[k v] e IH]; intros d Hwf.
  - simpl. now rewrite app_nil_r.
  - inversion Hwf as [|? ? Hnot He]; subst.
    cbn [fold_left fst snd map]. rewrite (IH _ He), dict_set_keys.
    unfold fresh at 2. cbn [filter].
    destruct (List.existsb (String.eqb k) (map fst d)) eqn:E; cbn [negb].
    + reflexivity.
    + rewrite (fresh_skip _ _ _ Hnot), <- app_assoc. reflexivity.
Qed.

(** X9.  The merged map keeps the keys in the order in which the sources
    are merged: first the keys of the regex source, then the keys of the list
    source that are new, then the keys of the table source that are new.  A
    later source changes the value of a key, not its place, so the resolvers
    meet the keys of the regex source first. *)
Theorem merge_key_order (regex_specs general_info spec_table : dict) :
  wf_dict regex_specs -> wf_dict general_info -> wf_dict spec_table ->
  let kr := map fst regex_specs in
  let kl := fresh kr (map fst general_info) in
  let kt := fresh (kr ++ kl)%list (map fst spec_table) in
  map fst (Motor.merge regex_specs general_info spec_table)
  = (kr ++ kl ++ kt)%list.
Proof.
  intros Hr Hl Ht kr kl kt. unfold Motor.merge.
  rewrite !dict_update_keys by assumption. cbn [map app].
  rewrite fresh_nil. fold kr. fold kl. fold kt. now rewrite app_assoc.
Qed.

Lemma merge_key_order_witness :
  map fst (Motor.merge [("efficiency", "7"); ("weight_kg", "1.2")]
                       [("model", "MY6812"); ("efficiency", "80%")]
                       [("efficiency (%)", "85"); ("model", "MY6812-B")])
  = ["efficiency"; "weight_kg"; "model"; "efficiency (%)"].
Proof.
  apply (merge_key_order [("efficiency", "7"); ("weight_kg", "1.2")]
                         [("model", "MY6812"); ("efficiency", "80%")]
                         [("efficiency (%)", "85"); ("model", "MY6812-B")]);
    solve_wf_dict.
Defined.

(** X10.  Precedence goes by raw key, not by field.  When the regex source
    has a match for the efficiency and neither the list nor the table source
    has a key that is "efficiency" up to case, the efficiency is resolved
    from the regex match: a table row under another key, such as
    "efficiency (%)", is a substring match only and is not consulted. *)
Theorem regex_efficiency_wins (regex_specs general_info spec_table : dict)
        (v : string) :
  wf_dict regex_specs -> wf_dict general_info -> wf_dict spec_table ->
  In ("efficiency", v) regex_specs -> v <> "" ->
  (forall k v', In (k, v') regex_specs ->
     Str.lower k = "efficiency" -> k = "efficiency") ->
  (forall k v', In (k, v') general_info -> Str.lower k <> "efficiency") ->
  (forall k v', In (k, v') spec_table -> Str.lower k <> "efficiency") ->
  Motor.get_spec (Motor.merge regex_specs general_info spec_table)
                 ["efficiency"] true false
  = clean_number v.
Proof.
  intros Hr Hl Ht Hin Hv Hkeys Hlist Htable.
  set (d := Motor.merge regex_specs general_info spec_table).
  assert (Hnone : forall src, (forall k v', In (k, v') src ->
            Str.lower k <> "efficiency") -> dict_get src "efficiency" = None).
  { intros src Hsrc. destruct (dict_get src "efficiency") as [v'|] eqn:E;
      [|reflexivity].
    apply dict_get_some_in in E. now apply Hsrc in E. }
  assert (Hget : dict_get d "efficiency" = Some v).
  { unfold d. rewrite motor_merge_get by assumption.
    rewrite (Hnone _ Htable), (Hnone _ Hlist).
    now apply dict_get_in. }
  unfold Motor.get_spec. cbn [Motor.get_spec_item].
  destruct (first_item (Motor.exact_hit (Str.lower "efficiency")) d)
    as [[k' v']|] eqn:Hfind.
  - apply first_item_some in Hfind as [Hin' Hhit].
    unfold Motor.exact_hit in Hhit. apply andb_true_iff in Hhit as [Hk _].
    apply String.eqb_eq in Hk. symmetry in Hk.
    assert (Hk' : k' = "efficiency").
    { unfold d, Motor.merge in Hin'.
      apply dict_update_in in Hin' as [Hin'|Hin'];
        [|exfalso; exact (Htable _ _ Hin' Hk)].
      apply dict_update_in in Hin' as [Hin'|Hin'];
        [|exfalso; exact (Hlist _ _ Hin' Hk)].
      apply dict_update_in in Hin' as [[]|Hin'].
      exact (Hkeys _ _ Hin' Hk). }
    subst k'. apply (dict_get_in _ _ _ (motor_merge_wf _ _ _)) in Hin'.
    fold d in Hin'. rewrite Hget in Hin'. injection Hin' as <-. reflexivity.
  - apply dict_get_some_in in Hget.
    pose proof (first_item_none _ _ _ _ Hfind Hget) as Hhit.
    unfold Motor.exact_hit in Hhit. apply truthy_true in Hv.
    rewrite Hv in Hhit. discriminate.
Qed.

Lemma regex_efficiency_wins_witness :
  Motor.get_spec
    (Motor.merge [("efficiency", "7")] [] [("efficiency (%)", "85")])
    ["efficiency"] true false
  = "7".
Proof.
  apply (regex_efficiency_wins [("efficiency", "7")] [] [("efficiency (%)", "85")] "7");
    try solve [solve_wf_dict].
  - left. reflexivity.
  - discriminate.
  - intros k v' [H|[]] _. now injection H as <- _.
  - intros k v' [].
  - intros k v' [H|[]]. injection H as <- _. discriminate.
Defined.

(** ** The resolvers of the battery engine *)

Lemma truthy_false_empty (s : string) : Str.truthy s = false -> s = "".
Proof. destruct s; [reflexivity|discriminate]. Qed.

Lemma first_item_split (p : string -> string -> bool) (d : dict) (k v : string) :
  first_item p d = Some (k, v) ->
  exists front back,
    d = (front ++ (k, v) :: back)%list
    /\ p k v = true
    /\ (forall k' v', In (k', v') front -> p k' v' = false).
Proof.
  unfold first_item. induction d as [|[k0 v0] d IH]; simpl; [discriminate|].
  destruct (p k0 v0) eqn:Hp.
  - intros H; injection H as <- <-. exists [], d. repeat split; auto.
    intros k' v' [].
  - intros H. destruct (IH H) as (front & back & -> & Hkv & Hfront).
    exists ((k0, v0) :: front), back. repeat split; auto.
    intros k' v' [Heq|Hin]; [now injection Heq as <- <-|now apply Hfront].
Qed.

(** X11.  The battery engine merges the list source and then the table
    source: a key of the table source has the table's value in the merged
    map, any other key the value of the list source. *)
Theorem battery_merge_precedence (general_info spec_table : dict) (k : string) :
  wf_dict general_info -> wf_dict spec_table ->
  dict_get (Battery.merge general_info spec_table) k
  = match dict_get spec_table k with
    | Some v => Some v
    | None => dict_get general_info k
    end.
Proof.
  intros Hl Ht. unfold Battery.merge.
  rewrite !dict_get_update by assumption. cbn [dict_get].
  destruct (dict_get spec_table k), (dict_get general_info k); reflexivity.
Qed.

Lemma battery_merge_precedence_witness :
  dict_get (Battery.merge [("capacity", "500mAh"); ("weight", "12 g")]
                          [("capacity", "520mAh")]) "capacity"
  = Some "520mAh".
Proof.
  apply (battery_merge_precedence [("capacity", "500mAh"); ("weight", "12 g")]
                                  [("capacity", "520mAh")] "capacity");
    solve_wf_dict.
Defined.

(** X12.  The battery resolver without exact matching takes, for the first
    alias that some key of the map contains, the first such key in the order
    of the map; the key is compared as it stands in the map and the alias in
    lower case; no alias contained in any key gives no entry.  The value of
    the entry is not looked at: when it is empty the field is empty, whatever
    the later entries and aliases hold. *)
Theorem battery_get_spec_walk (all_specs : dict) (keys : list string) :
  (forall k v,
      Battery.get_spec_item all_specs keys false = Some (k, v) ->
      exists before alias after front back,
        keys = (before ++ alias :: after)%list
        /\ (forall a k' v', In a before -> In (k', v') all_specs ->
              Str.contains (Str.lower a) k' = false)
        /\ all_specs = (front ++ (k, v) :: back)%list
        /\ Str.contains (Str.lower alias) k = true
        /\ (forall k' v', In (k', v') front ->
              Str.contains (Str.lower alias) k' = false))
  /\ (Battery.get_spec_item all_specs keys false = None ->
      forall a k' v', In a keys -> In (k', v') all_specs ->
        Str.contains (Str.lower a) k' = false)
  /\ (forall front k back alias rest clean,
        all_specs = (front ++ (k, "") :: back)%list ->
        Str.contains (Str.lower alias) k = true ->
        (forall k' v', In (k', v') front ->
           Str.contains (Str.lower alias) k' = false) ->
        Battery.get_spec all_specs (alias :: rest) clean false = "").
Proof.
  split; [|split].
  - induction keys as [|key keys IH]; intros k v; [discriminate|].
    cbn [Battery.get_spec_item].
    destruct (first_item (Battery.hit false (Str.lower key)) all_specs)
      as [[k0 v0]|] eqn:Hf.
    + intros H; injection H as <- <-.
      apply first_item_split in Hf as (front & back & Hd & Hk & Hfront).
      exists [], key, keys, front, back. repeat split; auto.
      intros a k' v' [].
    + intros H. destruct (IH _ _ H)
        as (before & alias & after & front & back & -> & Hb & Hrest).
      exists (key :: before), alias, after, front, back.
      split; [reflexivity|]. split; [|exact Hrest].
      intros a k' v' [<-|Ha] Hin; [|now apply (Hb a k' v')].
      exact (first_item_none _ _ _ _ Hf Hin).
  - induction keys as [|key keys IH]; intros H a k' v' Ha Hin; [destruct Ha|].
    cbn [Battery.get_spec_item] in H.
    destruct (first_item (Battery.hit false (Str.lower key)) all_specs)
      as [kv|] eqn:Hf; [discriminate|].
    destruct Ha as [<-|Ha]; [|now apply (IH H a k' v')].
    exact (first_item_none _ _ _ _ Hf Hin).
  - intros front k back alias rest clean -> Hk Hfront.
    unfold Battery.get_spec. cbn [Battery.get_spec_item].
    rewrite (first_item_skip (Battery.hit false (Str.lower alias)))
      by exact Hfront.
    unfold first_item. cbn [find fst snd Battery.hit]. rewrite Hk.
    apply cleaned_empty.
Qed.

Lemma battery_get_spec_walk_witness :
  Battery.get_spec [("capacity", "500mAh"); ("voltage", ""); ("nominal voltage", "3.7V")]
                   ["voltage"; "nominal voltage"] true false
  = "".
Proof.
  refine (proj2 (proj2 (battery_get_spec_walk
            [("capacity", "500mAh"); ("voltage", ""); ("nominal voltage", "3.7V")]
            ["voltage"; "nominal voltage"]))
          [("capacity", "500mAh")] "voltage" [("nominal voltage", "3.7V")]
          "voltage" ["nominal voltage"] true _ _ _); try reflexivity.
  intros k' v' [H|[]]. injection H as <- <-. reflexivity.
Defined.

(** X13.  The weight of the battery engine is the cleaned value of the
    first entry whose key names the weight, does not name shipping, and whose
    cleaned value is not empty: when there is such an entry its cleaned value
    is returned, and a result that is not empty comes from such an entry.
    The weight is empty when there is no such entry, and removing the
    shipping entries never changes it. *)
Theorem battery_get_weight_source (all_specs : dict) :
  (forall front k v back,
      all_specs = (front ++ (k, v) :: back)%list ->
      battery_weight_key k = true ->
      clean_number v <> "" ->
      (forall k' v', In (k', v') front ->
         battery_weight_key k' = true -> clean_number v' = "") ->
      Battery.get_weight all_specs = clean_number v)
  /\ (Battery.get_weight all_specs <> "" ->
      exists front k v back,
        all_specs = (front ++ (k, v) :: back)%list
        /\ battery_weight_key k = true
        /\ clean_number v <> ""
        /\ Battery.get_weight all_specs = clean_number v
        /\ (forall k' v', In (k', v') front ->
              battery_weight_key k' = true -> clean_number v' = ""))
  /\ ((forall k v, In (k, v) all_specs ->
         battery_weight_key k = true -> clean_number v = "")
      -> Battery.get_weight all_specs = "")
  /\ Battery.get_weight (without_shipping all_specs) = Battery.get_weight all_specs.
Proof.
  split; [|split; [|split]].
  - intros front k v back -> Hk Hv Hfront.
    induction front as [|[k0 v0] front IH].
    + cbn [app Battery.get_weight]. fold (battery_weight_key k). rewrite Hk.
      apply truthy_true in Hv. now rewrite Hv.
    + cbn [app Battery.get_weight]. fold (battery_weight_key k0).
      assert (Hrest : Battery.get_weight (front ++ (k, v) :: back)%list
                      = clean_number v).
      { apply IH. intros k' v' Hin. apply Hfront. now right. }
      destruct (battery_weight_key k0) eqn:Hk0; [|exact Hrest].
      rewrite (Hfront k0 v0 (or_introl eq_refl) Hk0). exact Hrest.
  - induction all_specs as [|[k0 v0] d IH]; [intros H; now contradiction H|].
    cbn [Battery.get_weight]. fold (battery_weight_key k0).
    destruct (battery_weight_key k0) eqn:Hk.
    + destruct (Str.truthy (clean_number v0)) eqn:Hv.
      * intros _. exists [], k0, v0, d. apply truthy_true in Hv.
        repeat split; auto. intros k' v' [].
      * intros H. destruct (IH H) as (front & k & v & back & -> & H1 & H2 & H3 & H4).
        exists ((k0, v0) :: front), k, v, back. repeat split; auto.
        intros k' v' [Heq|Hin] Hk'; [|now apply (H4 k' v')].
        injection Heq as <- <-. now apply truthy_false_empty.
    + intros H. destruct (IH H) as (front & k & v & back & -> & H1 & H2 & H3 & H4).
      exists ((k0, v0) :: front), k, v, back. repeat split; auto.
      intros k' v' [Heq|Hin] Hk'; [|now apply (H4 k' v')].
      injection Heq as <- <-. congruence.
  - induction all_specs as [|[k0 v0] d IH]; intros H; [reflexivity|].
    cbn [Battery.get_weight]. fold (battery_weight_key k0).
    assert (Hd : Battery.get_weight d = "").
    { apply IH. intros k v Hin. apply H. now right. }
    destruct (battery_weight_key k0) eqn:Hk; [|exact Hd].
    rewrite (H k0 v0 (or_introl eq_refl) Hk). exact Hd.
  - unfold without_shipping.
    induction all_specs as [|[k0 v0] d IH]; [reflexivity|].
    cbn [filter fst Battery.get_weight].
    destruct (Str.contains "shipping" (Str.lower k0)) eqn:Hs; cbn [negb].
    + rewrite IH. now rewrite andb_false_r.
    + cbn [Battery.get_weight]. rewrite Hs, IH. reflexivity.
Qed.

Lemma battery_get_weight_source_witness :
  Battery.get_weight
    [("shipping weight", "0.05 kg"); ("net weight", ""); ("Weight (g)", "12 g");
     ("gross weight", "15 g")]
  = "12"
  /\ Battery.get_weight [("shipping weight", "0.05 kg"); ("capacity", "500")] = "".
Proof.
  split.
  - apply (proj1 (battery_get_weight_source
                    [("shipping weight", "0.05 kg"); ("net weight", "");
                     ("Weight (g)", "12 g"); ("gross weight", "15 g")])
                 [("shipping weight", "0.05 kg"); ("net weight", "")]
                 "Weight (g)" "12 g" [("gross weight", "15 g")]).
    + reflexivity.
    + reflexivity.
    + discriminate.
    + intros k' v' [H|[H|[]]]; injection H as <- <-; [discriminate|reflexivity].
  - apply (proj1 (proj2 (proj2 (battery_get_weight_source
                           [("shipping weight", "0.05 kg"); ("capacity", "500")])))).
    intros k v [H|[H|[]]]; injection H as <- <-; discriminate.
Defined.

(** ** Shipping keys and unreadable numbers in the motor engine *)

Lemma contains_lower_eq (sub a k : string) :
  String.eqb (Str.lower a) (Str.lower k) = true ->
  Str.contains sub (Str.lower k) = Str.contains sub (Str.lower a).
Proof.
  intros H. apply String.eqb_eq in H. now rewrite H.
Qed.

Lemma motor_get_spec_item_exact_without_shipping (d : dict) (keys : list string) :
  (forall a, In a keys -> Str.contains "shipping" (Str.lower a) = false) ->
  Motor.get_spec_item (without_shipping d) keys true
  = Motor.get_spec_item d keys true.
Proof.
  unfold without_shipping.
  induction keys as [|key keys IH]; intros H; [reflexivity|].
  cbn [Motor.get_spec_item].
  rewrite first_item_filter, IH; [reflexivity| |].
  - intros a Ha. apply H. now right.
  - intros k v Hp. unfold Motor.exact_hit in Hp.
    apply andb_true_iff in Hp as [Hp _]. cbn [fst].
    rewrite (contains_lower_eq "shipping" key k Hp).
    now rewrite (H key (or_introl eq_refl)).
Qed.

(** X14.  The weight of the motor engine never comes from a shipping key:
    the entries whose key names shipping can be taken out of the map without
    changing it. *)
Theorem motor_get_weight_ignores_shipping (all_specs : dict) :
  Motor.get_weight (without_shipping all_specs) = Motor.get_weight all_specs.
Proof.
  unfold Motor.get_weight.
  assert (Hloop : Motor.get_weight_loop (without_shipping all_specs)
                  = Motor.get_weight_loop all_specs).
  { unfold without_shipping.
    induction all_specs as [|[k v] d IH]; [reflexivity|].
    cbn [filter fst Motor.get_weight_loop]. unfold Motor.is_weight_key.
    destruct (Str.contains "shipping" (Str.lower k)) eqn:Hs; cbn [negb].
    - rewrite andb_false_r. exact IH.
    - cbn [Motor.get_weight_loop]. unfold Motor.is_weight_key.
      rewrite Hs, IH. reflexivity. }
  rewrite Hloop. unfold Motor.get_spec.
  rewrite motor_get_spec_item_exact_without_shipping; [reflexivity|].
  intros a [<-|[<-|[<-|[]]]]; reflexivity.
Qed.





(** ** The record of the battery engine *)

(** X16.  In a record of the battery engine the composite dimension agrees
    with the three axis fields of the same record: unless the map has a key
    for the full dimensions, the field "Dimensions" is the fields "Thickness
    (mm)", "Breadth (mm)" and "Length (mm)" joined, when none of them is
    empty, and the empty string otherwise. *)
Theorem battery_record_dimensions (url : string) (page : Page) (record : dict) :
  Battery.scrape_battery url page = Some record ->
  (forall k v,
      In (k, v) (Battery.merge (general_info page) (spec_table page)) ->
      Battery.is_full_dimensions_key k = false) ->
  exists t b l,
    dict_get record "Thickness (mm)" = Some t
    /\ dict_get record "Breadth (mm)" = Some b
    /\ dict_get record "Length (mm)" = Some l
    /\ dict_get record "Dimensions"
       = Some (if Str.truthy t && Str.truthy b && Str.truthy l
               then t ++ " × " ++ b ++ " × " ++ l ++ " mm" else "").
Proof.
  unfold Battery.scrape_battery.
  destruct (Str.truthy (product_name page)); [|discriminate].
  cbn [negb]. intros H Hno. injection H as <-.
  set (d := Battery.merge (general_info page) (spec_table page)) in *.
  exists (Battery.get_dimension d "thickness"),
         (str_or (Battery.get_dimension d "breadth") (Battery.get_dimension d "width")),
         (Battery.get_dimension d "length").
  split; [reflexivity|]. split; [reflexivity|]. split; [reflexivity|].
  change (dict_get _ "Dimensions") with (Some (Battery.get_full_dimensions d)).
  f_equal. unfold Battery.get_full_dimensions.
  now rewrite (first_item_absent (fun k _ => Battery.is_full_dimensions_key k))
    by exact Hno.
Qed.

Lemma battery_record_dimensions_witness :
  let page := {| product_name := "LiPo 500mAh";
                 stock_status := "In Stock"; price := "249.00";
                 general_info := [("capacity", "500mAh")];
                 spec_table := [("thickness (mm)", "7.5"); ("width", "25");
                                ("length (mm)", "30")];
                 regex_specs := [] |} in
  exists record,
    Battery.scrape_battery "https://robu.in/product/b" page = Some record
    /\ dict_get record "Dimensions" = Some "7.5 × 25 × 30 mm".
Proof.
  intros page.
  destruct (Battery.scrape_battery "https://robu.in/product/b" page)
    as [record|] eqn:Hrec; [|discriminate Hrec].
  exists record. split; [reflexivity|].
  destruct (battery_record_dimensions _ _ _ Hrec) as (t & b & l & Ht & Hb & Hl & Hd).
  - intros k v Hin. vm_compute in Hin.
    repeat (destruct Hin as [Hin|Hin]; [injection Hin as <- <-; reflexivity|]).
    contradiction.
  - rewrite Hd. injection Hrec as <-.
    vm_compute in Ht, Hb, Hl. injection Ht as <-. injection Hb as <-.
    injection Hl as <-. reflexivity.
Defined.

(** ** Discovery of product addresses *)

Lemma insert_in (x y : string) (l : list string) :
  In y (Batch.insert x l) <-> y = x \/ In y l.
Proof.
  induction l as [|z l IH]; simpl; [intuition|].
  destruct (String.leb x z); simpl; [intuition|].
  rewrite IH. intuition.
Qed.

Lemma sorted_in (y : string) (l : list string) :
  In y (Batch.sorted l) <-> In y l.
Proof.
  induction l as [|z l IH]; simpl; [tauto|].
  rewrite insert_in, IH. intuition.
Qed.

Lemma insert_increasing (x : string) (l : list string) :
  increasing l = true -> increasing (Batch.insert x l) = true.
Proof.
  induction l as [|y l IH]; [reflexivity|].
  intros Hl. cbn [Batch.insert].
  destruct (String.leb x y) eqn:Hxy.
  - change (String.leb x y && increasing (y :: l) = true). now rewrite Hxy.
  - assert (Hyx : String.leb y x = true).
    { destruct (String.leb_total x y) as [H|H]; [congruence|exact H]. }
    assert (Htail : increasing l = true).
    { destruct l as [|z l]; [reflexivity|].
      cbn [increasing] in Hl. now apply andb_true_iff in Hl. }
    specialize (IH Htail).
    destruct l as [|z l]; [cbn; now rewrite Hyx|].
    cbn [Batch.insert] in *. cbn [increasing] in Hl.
    apply andb_true_iff in Hl as [Hyz _].
    destruct (String.leb x z).
    + change (String.leb y x && increasing (x :: z :: l) = true).
      now rewrite Hyx.
    + change (String.leb y z && increasing (z :: Batch.insert x l) = true).
      now rewrite Hyz.
Qed.

Lemma sorted_increasing (l : list string) : increasing (Batch.sorted l) = true.
Proof.
  induction l as [|x l IH]; [reflexivity|]. now apply insert_increasing.
Qed.

Lemma insert_nodup (x : string) (l : list string) :
  ~ In x l -> NoDup l -> NoDup (Batch.insert x l).
Proof.
  induction l as [|y l IH]; intros Hx Hl; simpl.
  - repeat constructor. intros [].
  - destruct (String.leb x y); [now constructor|].
    inversion Hl as [|? ? Hy Hl']; subst. constructor.
    + rewrite insert_in. intros [->|H]; [apply Hx; now left|contradiction].
    + apply IH; [|exact Hl']. intros H. apply Hx. now right.
Qed.

Lemma sorted_nodup (l : list string) : NoDup l -> NoDup (Batch.sorted l).
Proof.
  induction l as [|x l IH]; intros H; [constructor|].
  inversion H as [|? ? Hx Hl]; subst. simpl.
  apply insert_nodup; [now rewrite sorted_in|now apply IH].
Qed.

Lemma mem_in (x : string) (s : list string) : Batch.mem x s = true <-> In x s.
Proof.
  unfold Batch.mem. rewrite List.existsb_exists. split.
  - intros (y & Hy & E). apply String.eqb_eq in E. now subst.
  - intros H. exists x. split; [exact H|apply String.eqb_refl].
Qed.

Lemma set_add_in (s : list string) (x y : string) :
  In y (Batch.set_add s x) <-> y = x \/ In y s.
Proof.
  unfold Batch.set_add. destruct (Batch.mem x s) eqn:E; simpl.
  - apply (proj1 (mem_in _ _)) in E. split; [now right|]. intros [->|H]; assumption.
  - intuition.
Qed.

Lemma set_add_nodup (s : list string) (x : string) :
  NoDup s -> NoDup (Batch.set_add s x).
Proof.
  unfold Batch.set_add. intros H. destruct (Batch.mem x s) eqn:E; [exact H|].
  constructor; [|exact H]. intros Hin. apply (proj2 (mem_in _ _)) in Hin. congruence.
Qed.

Lemma rstrip_slash_fixed (s : string) :
  Str.rstrip_slash (Str.rstrip_slash s) = Str.rstrip_slash s.
Proof.
  induction s as [|c t IH]; [reflexivity|].
  cbn [Str.rstrip_slash].
  destruct (Str.rstrip_slash t) as [|d u] eqn:Ht.
  - destruct (Ascii.eqb c "/") eqn:Hc; [reflexivity|].
    cbn [Str.rstrip_slash]. now rewrite Hc.
  - change (Str.rstrip_slash (String c (String d u)))
      with (match Str.rstrip_slash (String d u) with
            | EmptyString => if Ascii.eqb c "/" then EmptyString
                             else String c EmptyString
            | t' => String c t'
            end).
    now rewrite IH.
Qed.

Lemma add_url_ok (urls : list string) (href : string) :
  NoDup urls /\ Forall url_ok urls ->
  NoDup (Batch.add_url urls href) /\ Forall url_ok (Batch.add_url urls href).
Proof.
  intros [Hnd Hall]. unfold Batch.add_url.
  destruct (Batch.mem (Str.rstrip_slash href) Batch.EXCLUDED_URLS) eqn:E;
    cbn [negb]; [now split|].
  split; [now apply set_add_nodup|].
  apply Forall_forall. intros u Hu. apply (proj1 (set_add_in _ _ _)) in Hu as [->|Hu].
  - split; [apply rstrip_slash_fixed|].
    intros Hin. apply (proj2 (mem_in _ _)) in Hin. congruence.
  - exact (proj1 (Forall_forall _ _) Hall u Hu).
Qed.

Lemma add_urls_ok (test : string -> bool) (links urls : list string) :
  NoDup urls /\ Forall url_ok urls ->
  let urls' := fold_left (fun urls href => if test href then Batch.add_url urls href
                                           else urls) links urls in
  NoDup urls' /\ Forall url_ok urls'.
Proof.
  revert urls. induction links as [|href links IH]; intros urls H; [exact H|].
  cbn [fold_left]. apply IH. destruct (test href); [now apply add_url_ok|exact H].
Qed.

Lemma add_urls_keep (test : string -> bool) (links urls : list string) (u : string) :
  In u urls ->
  In u (fold_left (fun urls href => if test href then Batch.add_url urls href
                                    else urls) links urls).
Proof.
  revert urls. induction links as [|href links IH]; intros urls H; [exact H|].
  cbn [fold_left]. apply IH. destruct (test href); [|exact H].
  unfold Batch.add_url.
  destruct (negb (Batch.mem (Str.rstrip_slash href) Batch.EXCLUDED_URLS));
    [|exact H].
  apply (proj2 (set_add_in _ _ _)). now right.
Qed.

Lemma add_urls_found (test : string -> bool) (links urls : list string)
      (href : string) :
  In href links -> test href = true ->
  ~ In (Str.rstrip_slash href) Batch.EXCLUDED_URLS ->
  In (Str.rstrip_slash href)
     (fold_left (fun urls href => if test href then Batch.add_url urls href
                                  else urls) links urls).
Proof.
  revert urls. induction links as [|h links IH]; intros urls [].
  - subst h. intros Ht Hex. cbn [fold_left]. rewrite Ht.
    apply add_urls_keep. unfold Batch.add_url.
    destruct (Batch.mem (Str.rstrip_slash href) Batch.EXCLUDED_URLS) eqn:E.
    + apply (proj1 (mem_in _ _)) in E. contradiction.
    + cbn [negb]. apply (proj2 (set_add_in _ _ _)). now left.
  - intros Ht Hex. cbn [fold_left]. now apply IH.
Qed.

Lemma extract_product_urls_ok
      (grid_links : option (list string)) (all_links : list string) :
  let urls := Batch.extract_product_urls grid_links all_links in
  NoDup urls /\ (forall u, In u urls -> url_ok u).
Proof.
  intros urls. unfold urls, Batch.extract_product_urls.
  set (from_grid := match grid_links with Some _ => _ | None => _ end).
  assert (Hgrid : NoDup from_grid /\ Forall url_ok from_grid).
  { unfold from_grid. destruct grid_links as [links|].
    - apply add_urls_ok. split; constructor.
    - split; constructor. }
  destruct (add_urls_ok Batch.is_product_url all_links from_grid Hgrid)
    as [Hnd Hall].
  split; [now apply sorted_nodup|].
  intros u Hu. unfold urls, Batch.extract_product_urls in Hu.
  apply (proj1 (sorted_in _ _)) in Hu.
  exact (proj1 (Forall_forall _ _) Hall u Hu).
Qed.

(** X17.  The product addresses found on a listing page come in increasing
    order and without repetition; none ends with a slash and none is one of
    the excluded addresses; and every link of the page that has the form of a
    product address is among them, without its final slash, unless it is
    excluded. *)
Theorem extract_product_urls_result
        (grid_links : option (list string)) (all_links : list string) :
  let urls := Batch.extract_product_urls grid_links all_links in
  increasing urls = true
  /\ NoDup urls
  /\ (forall u, In u urls ->
        Str.rstrip_slash u = u /\ ~ In u Batch.EXCLUDED_URLS)
  /\ (forall href,
        In href all_links -> Batch.is_product_url href = true ->
        ~ In (Str.rstrip_slash href) Batch.EXCLUDED_URLS ->
        In (Str.rstrip_slash href) urls).
Proof.
  intros urls.
  destruct (extract_product_urls_ok grid_links all_links) as [Hnd Hok].
  split; [apply sorted_increasing|]. split; [exact Hnd|]. split; [exact Hok|].
  intros href Hin Ht Hex. unfold urls, Batch.extract_product_urls.
  apply (proj2 (sorted_in _ _)). now apply add_urls_found.
Qed.

Lemma extract_product_urls_result_witness :
  In "https://robu.in/product/my6812-100w-dc-motor"
     (Batch.extract_product_urls
        None
        [ "https://robu.in/cart/";
          "https://robu.in/product/my6812-100w-dc-motor/";
          "https://robu.in/product/3d-printing-service/" ]).
Proof.
  destruct (extract_product_urls_result None
              [ "https://robu.in/cart/";
                "https://robu.in/product/my6812-100w-dc-motor/";
                "https://robu.in/product/3d-printing-service/" ])
    as (_ & _ & _ & H).
  apply (H "https://robu.in/product/my6812-100w-dc-motor/").
  - right. left. reflexivity.
  - reflexivity.
  - simpl. intuition discriminate.
Defined.

(** X18.  A product that was saved is not scraped again: the address that
    an engine writes into the field "URL" of the record is the address the
    product was found under, so when the addresses of the saved records are
    the existing ones, the product is not among the new addresses of the next
    run. *)
Theorem saved_product_is_skipped
        (grid_links : option (list string)) (all_links existing_urls : list string)
        (url : string) (page : Page) (record : dict) :
  In url (Batch.extract_product_urls grid_links all_links) ->
  Motor.scrape_product url page = Ok record
  \/ Battery.scrape_battery url page = Some record ->
  dict_get record "URL" = Some url
  /\ (forall saved, dict_get record "URL" = Some saved ->
        In saved existing_urls ->
        ~ In url (Batch.new_urls
                    (Batch.extract_product_urls grid_links all_links)
                    existing_urls)).
Proof.
  intros Hin Hrec.
  destruct (extract_product_urls_ok grid_links all_links) as [_ Hok].
  destruct (Hok url Hin) as [Hfix _].
  assert (Hurl : dict_get record "URL" = Some url).
  { destruct Hrec as [Hrec|Hrec].
    - unfold Motor.scrape_product in Hrec.
      destruct (Motor.get_efficiency _); [|discriminate].
      injection Hrec as <-. cbn. now rewrite Hfix.
    - unfold Battery.scrape_battery in Hrec.
      destruct (Str.truthy (product_name page)); [|discriminate].
      injection Hrec as <-. cbn. now rewrite Hfix. }
  split; [exact Hurl|].
  intros saved Hsaved Hex. rewrite Hurl in Hsaved. injection Hsaved as <-.
  unfold Batch.new_urls. rewrite filter_In. intros [_ H].
  apply negb_true_iff in H. apply (proj2 (mem_in _ _)) in Hex. congruence.
Qed.

Lemma saved_product_is_skipped_witness :
  let links := [ "https://robu.in/product/lipo-500mah/" ] in
  ~ In "https://robu.in/product/lipo-500mah"
       (Batch.new_urls (Batch.extract_product_urls None links)
                       ["https://robu.in/product/lipo-500mah"]).
Proof.
  intros links.
  destruct (Battery.scrape_battery "https://robu.in/product/lipo-500mah"
              (bare_page "LiPo 500mAh" "In Stock" "249.00"))
    as [record|] eqn:Hrec; [|discriminate Hrec].
  destruct (saved_product_is_skipped None links
              ["https://robu.in/product/lipo-500mah"]
              "https://robu.in/product/lipo-500mah"
              (bare_page "LiPo 500mAh" "In Stock" "249.00") record)
    as [Hurl Hskip].
  - left. reflexivity.
  - right. exact Hrec.
  - apply (Hskip _ Hurl). left. reflexivity.
Defined.

(** ** Saving records *)

(** X19.  The row that is written for a record of an engine is the record
    itself: laying the record out along the declared columns finds every
    column in it, in place, and falls back to the empty default for none. *)
Theorem row_data_of_record (url : string) (page : Page) (record : dict) :
  (Motor.scrape_product url page = Ok record ->
   Batch.row_data Motor.CSV_COLUMNS record = record)
  /\ (Battery.scrape_battery url page = Some record ->
      Batch.row_data Battery.CSV_COLUMNS record = record).
Proof.
  split.
  - unfold Motor.scrape_product.
    destruct (Motor.get_efficiency _); [|discriminate].
    intros H; injection H as <-. reflexivity.
  - unfold Battery.scrape_battery.
    destruct (Str.truthy (product_name page)); [|discriminate].
    intros H; injection H as <-. reflexivity.
Qed.

Lemma row_data_of_record_witness :
  exists record,
    Battery.scrape_battery "https://robu.in/product/b"
                           (bare_page "LiPo 500mAh" "In Stock" "249.00")
    = Some record
    /\ Batch.row_data Battery.CSV_COLUMNS record = record.
Proof.
  destruct (Battery.scrape_battery "https://robu.in/product/b"
              (bare_page "LiPo 500mAh" "In Stock" "249.00"))
    as [record|] eqn:Hrec; [|discriminate Hrec].
  exists record. split; [reflexivity|].
  exact (proj2 (row_data_of_record _ _ record) Hrec).
Defined.

(** X20.  The safe wrapper of the motor driver hands on a record exactly
    when the engine returns one and a product name was found, and then it is
    the record of the engine; an exception of the engine and a record without
    a name both give nothing. *)
Theorem scrape_product_safe_result (url : string) (page : Page) (record : dict) :
  Motor.scrape_product_safe url page = Some record
  <-> Motor.scrape_product url page = Ok record /\ product_name page <> "".
Proof.
  unfold Motor.scrape_product_safe.
  destruct (Motor.scrape_product url page) as [data|e] eqn:Hrec.
  - destruct (motor_record_keys _ _ _ Hrec) as [Hkeys Hname].
    destruct data as [|entry data]; [discriminate Hkeys|].
    rewrite Hname. destruct (product_name page) as [|c n]; cbn [Str.truthy].
    + split; [discriminate|]. intros [_ H]. now contradiction H.
    + split.
      * intros H; injection H as <-. split; [reflexivity|discriminate].
      * intros [H _]. injection H as <-. reflexivity.
  - split; [discriminate|]. intros [H _]. discriminate H.
Qed.

(** ** Fetching with retries *)

Lemma backoff_seq (a j : nat) :
  map (fun n => (2 ^ Z.of_nat n)%Z) (seq a (S j))
  = ((2 ^ Z.of_nat a)%Z :: map (fun n => (2 ^ Z.of_nat n)%Z) (seq (S a) j)).
Proof. reflexivity. Qed.

(** The loop from some attempt on: the attempts before the first success
    fail and are each followed by a nap. *)
Lemma fetch_from_success (get : nat -> option string) (retries : nat) (text : string) :
  forall remaining j,
    remaining <= retries ->
    retries - remaining <= j -> j < retries ->
    get j = Some text ->
    (forall a, retries - remaining <= a -> a < j -> get a = None) ->
    Fetch.fetch_from get retries remaining
    = (Some text,
       map (fun n => (2 ^ Z.of_nat n)%Z)
           (seq (retries - remaining) (j - (retries - remaining)))).
Proof.
  induction remaining as [|remaining IH]; intros j Hle Hlo Hhi Hj Hfail; [lia|].
  cbn [Fetch.fetch_from].
  destruct (Nat.eq_dec j (retries - S remaining)) as [->|Hne].
  - rewrite Hj, Nat.sub_diag. reflexivity.
  - rewrite (Hfail (retries - S remaining)) by lia.
    rewrite (IH j) by (try lia; try assumption; intros a Ha1 Ha2; apply Hfail; lia).
    destruct (Nat.ltb_spec (retries - S remaining) (retries - 1)) as [_|H]; [|lia].
    replace (j - (retries - S remaining)) with (S (j - (retries - remaining))) by lia.
    rewrite backoff_seq. repeat f_equal. lia.
Qed.

Lemma fetch_from_failure (get : nat -> option string) (retries : nat) :
  forall remaining,
    remaining <= retries ->
    (forall a, retries - remaining <= a -> a < retries -> get a = None) ->
    Fetch.fetch_from get retries remaining
    = (None,
       map (fun n => (2 ^ Z.of_nat n)%Z)
           (seq (retries - remaining) (remaining - 1))).
Proof.
  induction remaining as [|remaining IH]; intros Hle Hfail; [reflexivity|].
  cbn [Fetch.fetch_from].
  rewrite (Hfail (retries - S remaining)) by lia.
  rewrite IH by (try lia; intros a Ha1 Ha2; apply Hfail; lia).
  destruct (Nat.ltb_spec (retries - S remaining) (retries - 1)) as [H|H].
  - replace (S remaining - 1) with (S (remaining - 1)) by lia.
    rewrite backoff_seq. repeat f_equal. lia.
  - replace remaining with 0 by lia. reflexivity.
Qed.

Lemma backoff_sum (j : nat) :
  fold_right Z.add 0%Z (Fetch.backoff j) = (2 ^ Z.of_nat j - 1)%Z.
Proof.
  unfold Fetch.backoff. induction j as [|j IH]; [reflexivity|].
  rewrite seq_S, map_app, fold_right_app. cbn [map fold_right plus].
  assert (Hshift : forall (l : list Z) (z : Z),
            fold_right Z.add z l = (fold_right Z.add 0 l + z)%Z).
  { induction l as [|x l IHl]; intros z; cbn [fold_right]; [lia|].
    rewrite (IHl z). lia. }
  rewrite Hshift, IH, Nat2Z.inj_succ, Z.pow_succ_r by lia. lia.
Qed.

(** X21.  [fetch_page] returns the text of the first attempt that succeeds
    among the first [retries] attempts, having slept one, two, four, ...
    seconds after each failed attempt before it; when all attempts fail it
    returns nothing, and has slept after each failed attempt but the last, in
    all less than [2 ** (retries - 1)] seconds. *)
Theorem fetch_page_backoff (get : nat -> option string) (retries : nat) :
  (forall j text,
      j < retries -> get j = Some text ->
      (forall a, a < j -> get a = None) ->
      Fetch.fetch_page get retries = (Some text, Fetch.backoff j))
  /\ ((forall a, a < retries -> get a = None) ->
      Fetch.fetch_page get retries = (None, Fetch.backoff (retries - 1))
      /\ (fold_right Z.add 0 (snd (Fetch.fetch_page get retries))
          < 2 ^ Z.of_nat (retries - 1))%Z).
Proof.
  unfold Fetch.fetch_page, Fetch.backoff. split.
  - intros j text Hj Hget Hfail.
    rewrite (fetch_from_success get retries text retries j);
      try lia; try assumption.
    + rewrite Nat.sub_diag, Nat.sub_0_r. reflexivity.
    + intros a _ Ha. now apply Hfail.
  - intros Hfail.
    assert (H : Fetch.fetch_from get retries retries
                = (None, map (fun n => (2 ^ Z.of_nat n)%Z) (seq 0 (retries - 1)))).
    { rewrite (fetch_from_failure get retries retries); try lia.
      - now rewrite Nat.sub_diag.
      - intros a _ Ha. now apply Hfail. }
    split; [exact H|]. rewrite H. cbn [snd].
    change (map _ (seq 0 (retries - 1))) with (Fetch.backoff (retries - 1)).
    rewrite backoff_sum. lia.
Qed.

Lemma fetch_page_backoff_witness :
  Fetch.fetch_page (fun attempt => if Nat.eqb attempt 2 then Some "<html>" else None) 3
  = (Some "<html>", [1; 2]%Z)
  /\ Fetch.fetch_page (fun _ => None) 3 = (None, [1; 2]%Z).
Proof.
  split.
  - apply (proj1 (fetch_page_backoff
                    (fun attempt => if Nat.eqb attempt 2 then Some "<html>" else None) 3)
                 2 "<html>"); [lia|reflexivity|].
    intros a Ha. destruct a as [|[|a]]; [reflexivity|reflexivity|lia].
  - apply (proj2 (fetch_page_backoff (fun _ => None) 3)). reflexivity.
Defined.

(** ** Stock status *)

Lemma contains_startswith (sub s : string) :
  Str.startswith sub s = true -> Str.contains sub s = true.
Proof.
  intros H. destruct s; simpl in *; now rewrite H.
Qed.

Lemma contains_tail (sub : string) (c : ascii) (s : string) :
  Str.contains sub s = true -> Str.contains sub (String c s) = true.
Proof.
  intros H. cbn [Str.contains]. rewrite H. apply orb_true_r.
Qed.

(** A text that starts with [a ++ b] contains [b]. *)
Lemma startswith_app_contains (a b s : string) :
  Str.startswith (a ++ b) s = true -> Str.contains b s = true.
Proof.
  revert s. induction a as [|c a IH]; intros s H.
  - now apply contains_startswith.
  - destruct s as [|d s]; [discriminate|].
    cbn [String.append Str.startswith] in H.
    apply andb_true_iff in H as [_ H]. apply contains_tail. now apply IH.
Qed.

Lemma contains_app_r (a b s : string) :
  Str.contains (a ++ b) s = true -> Str.contains b s = true.
Proof.
  induction s as [|c s IH]; intros H; cbn [Str.contains] in H.
  - rewrite orb_false_r in H. now apply (startswith_app_contains a b "").
  - apply orb_true_iff in H as [H|H].
    + now apply (startswith_app_contains a b).
    + apply contains_tail. now apply IH.
Qed.

(** X22.  The stock status reads "Out of Stock" whenever the text that is
    consulted, in lower case, contains "out of stock", and otherwise "In
    Stock" whenever it contains "in stock".  A notice "low in stock" contains
    "in stock", so it is never reported as "Low Stock", with or without the
    stock paragraph.  Without the stock paragraph the status is one of "Out
    of Stock", "In Stock", "Low Stock" and "Unknown", and "Low Stock" stands
    for a page that contains "low stock" and neither of the other two. *)
Theorem extract_stock_status_values (stock_text : option string) (page_text : string) :
  let consulted := Str.lower (match stock_text with
                              | Some text => text
                              | None => page_text
                              end) in
  let status := Identity.extract_stock_status stock_text page_text in
  (Str.contains "out of stock" consulted = true -> status = "Out of Stock")
  /\ (Str.contains "out of stock" consulted = false ->
      Str.contains "in stock" consulted = true -> status = "In Stock")
  /\ (Str.contains "low in stock" consulted = true -> status <> "Low Stock")
  /\ (stock_text = None ->
      In status ["Out of Stock"; "In Stock"; "Low Stock"; "Unknown"]
      /\ (status = "Low Stock" <->
          Str.contains "low stock" consulted = true
          /\ Str.contains "in stock" consulted = false
          /\ Str.contains "out of stock" consulted = false)).
Proof.
  intros consulted status.
  assert (Hlow : Str.contains "low in stock" consulted = true ->
                 Str.contains "in stock" consulted = true).
  { apply (contains_app_r "low " "in stock"). }
  unfold status, Identity.extract_stock_status.
  destruct stock_text as [text|]; cbn [consulted] in *; fold consulted.
  - split; [intros ->; reflexivity|]. split; [intros -> ->; reflexivity|].
    split; [|discriminate].
    intros H. rewrite (Hlow H).
    destruct (Str.contains "out of stock" consulted); discriminate.
  - split; [intros ->; reflexivity|]. split; [intros -> ->; reflexivity|].
    split.
    + intros H. rewrite (Hlow H).
      destruct (Str.contains "out of stock" consulted); discriminate.
    + intros _.
      destruct (Str.contains "out of stock" consulted) eqn:Hout.
      { split; [simpl; tauto|]. split; [discriminate|]. intros (_ & _ & H).
        discriminate. }
      destruct (Str.contains "in stock" consulted) eqn:Hin.
      { split; [simpl; tauto|]. split; [discriminate|]. intros (_ & H & _).
        discriminate. }
      destruct (Str.contains "low in stock" consulted) eqn:Hlis.
      { specialize (Hlow eq_refl). discriminate. }
      rewrite orb_false_r.
      destruct (Str.contains "low stock" consulted).
      { split; [simpl; tauto|]. split; [auto|reflexivity]. }
      split; [simpl; tauto|]. split; [discriminate|]. intros (H & _).
      discriminate.
Qed.

Lemma extract_stock_status_values_witness :
  Identity.extract_stock_status (Some "Low in stock - order now") "" = "In Stock"
  /\ Identity.extract_stock_status None "Hurry, low in stock!" <> "Low Stock".
Proof.
  split.
  - apply (extract_stock_status_values (Some "Low in stock - order now") "");
      reflexivity.
  - apply (extract_stock_status_values None "Hurry, low in stock!").
    reflexivity.
Defined.

(** ** Price *)

Lemma span_app_stop (p : ascii -> bool) (a b : string) :
  Str.forallb p a = true ->
  match b with
  | EmptyString => True
  | String c _ => p c = false
  end ->
  Str.span p (a ++ b) = (a, b).
Proof.
  induction a as [|c a IH]; cbn [String.append Str.forallb Str.span]; intros Ha Hb.
  - destruct b as [|c b]; [reflexivity|]. cbn [Str.span]. now rewrite Hb.
  - apply andb_true_iff in Ha as [Hc Ha]. now rewrite Hc, (IH Ha Hb).
Qed.

Lemma span_split (p : ascii -> bool) (s : string) :
  s = fst (Str.span p s) ++ snd (Str.span p s)
  /\ Str.forallb p (fst (Str.span p s)) = true
  /\ match snd (Str.span p s) with
     | EmptyString => True
     | String c _ => p c = false
     end.
Proof.
  induction s as [|c s IH]; cbn [Str.span]; [now repeat split|].
  destruct (p c) eqn:Hc.
  - destruct (Str.span p s) as [a b]. cbn [fst snd] in *.
    destruct IH as (H1 & H2 & H3). cbn [String.append Str.forallb].
    rewrite Hc, H2. repeat split; [now f_equal|exact H3].
  - cbn [fst snd String.append Str.forallb]. now repeat split.
Qed.

Lemma remove_commas_free (s : string) :
  Str.existsb (fun c => Ascii.eqb c ",") (Identity.remove_commas s) = false.
Proof.
  induction s as [|c s IH]; [reflexivity|].
  cbn [Identity.remove_commas]. destruct (Ascii.eqb c ",") eqn:Hc; [exact IH|].
  cbn [Str.existsb]. now rewrite Hc, IH.
Qed.

Lemma span_digits_without_commas (s : string) :
  Str.existsb (fun c => Ascii.eqb c ",") s = false ->
  Str.span Identity.is_digit_or_comma s = Str.span Str.is_digit s.
Proof.
  induction s as [|c s IH]; [reflexivity|].
  cbn [Str.existsb Str.span]. intros H.
  apply orb_false_iff in H as [Hc Hs].
  unfold Identity.is_digit_or_comma at 1. rewrite Hc, orb_false_r.
  now rewrite (IH Hs).
Qed.

Lemma digit_not_space (c : ascii) :
  Str.is_digit c = true -> Str.is_space c = false.
Proof.
  destruct c as [[] [] [] [] [] [] [] []]; vm_compute; congruence.
Qed.

Lemma digit_not_sign (c : ascii) :
  Str.is_digit c = true -> Ascii.eqb c "-" = false /\ Ascii.eqb c "+" = false.
Proof.
  destruct c as [[] [] [] [] [] [] [] []]; vm_compute; split; congruence.
Qed.

Lemma digit_not_dot (c : ascii) :
  Str.is_digit c = true -> Ascii.eqb c "." = false.
Proof.
  destruct c as [[] [] [] [] [] [] [] []]; vm_compute; congruence.
Qed.

Lemma digits_ends_clean (d : string) :
  Str.forallb Str.is_digit d = true -> ends_clean d = true.
Proof.
  induction d as [|c d IH]; [reflexivity|].
  cbn [Str.forallb]. intros H. apply andb_true_iff in H as [Hc Hd].
  destruct d as [|c' d]; [simpl; now rewrite (digit_not_space c Hc)|].
  now apply IH.
Qed.

Lemma ends_clean_app (a : string) (c : ascii) (b : string) :
  ends_clean (String c b) = true -> ends_clean (a ++ String c b) = true.
Proof.
  induction a as [|x a IH]; intros H; [exact H|].
  cbn [String.append]. specialize (IH H).
  destruct (a ++ String c b) eqn:E; [destruct a; discriminate|exact IH].
Qed.

Lemma append_nil_r (s : string) : s ++ "" = s.
Proof.
  induction s as [|c s IH]; [reflexivity|]. cbn [String.append]. now rewrite IH.
Qed.

(** A decimal literal, with digits before the point, reads as a number. *)
Lemma of_string_decimal (c : ascii) (d1 frac : string) :
  Str.is_digit c = true ->
  Str.forallb Str.is_digit d1 = true ->
  frac = "" \/ (exists d2, frac = String "." d2 /\ Str.forallb Str.is_digit d2 = true) ->
  Float.of_string (String c d1 ++ frac) <> None.
Proof.
  intros Hc Hd1 Hfrac.
  assert (Hend : ends_clean (String c d1 ++ frac) = true).
  { destruct Hfrac as [->|(d2 & -> & Hd2)].
    - rewrite append_nil_r. apply digits_ends_clean.
      cbn [Str.forallb]. now rewrite Hc, Hd1.
    - apply ends_clean_app. destruct d2 as [|x d2]; [reflexivity|].
      apply (digits_ends_clean (String x d2)) in Hd2. exact Hd2. }
  unfold Float.of_string.
  rewrite strip_fixed;
    [|cbn [String.append starts_clean]; now rewrite (digit_not_space c Hc)|exact Hend].
  cbn [String.append Float.split_sign].
  destruct (digit_not_sign c Hc) as [-> ->].
  destruct (String.eqb _ "inf" || String.eqb _ "infinity"); [discriminate|].
  destruct (String.eqb _ "nan"); [discriminate|].
  unfold Float.split_decimal.
  change (String c (d1 ++ frac)) with (String c d1 ++ frac).
  assert (Hall : Str.forallb Str.is_digit (String c d1) = true)
    by (cbn [Str.forallb]; now rewrite Hc, Hd1).
  destruct Hfrac as [->|(d2 & -> & Hd2)].
  - rewrite (span_app_stop Str.is_digit (String c d1) "" Hall I). discriminate.
  - rewrite (span_app_stop Str.is_digit (String c d1) (String "." d2) Hall eq_refl).
    cbn [Ascii.eqb Bool.eqb].
    rewrite (span_all Str.is_digit d2 Hd2). discriminate.
Qed.

Lemma match_price_reads (c : ascii) (s : string) :
  Str.is_digit c = true ->
  Str.existsb (fun c => Ascii.eqb c ",") (String c s) = false ->
  Float.of_string (Identity.match_price (String c s)) <> None.
Proof.
  intros Hc Hfree. unfold Identity.match_price.
  rewrite (span_digits_without_commas _ Hfree).
  destruct (span_split Str.is_digit (String c s)) as (Hs & Hall & Hstop).
  cbn [Str.span] in *. rewrite Hc in *.
  destruct (Str.span Str.is_digit s) as [d1 rest]. cbn [fst snd] in *.
  cbn [Str.forallb] in Hall. apply andb_true_iff in Hall as [_ Hd1].
  apply of_string_decimal; [exact Hc|exact Hd1|].
  destruct rest as [|x rest]; [now left|].
  destruct (Ascii.eqb x ".") eqn:Hx; [|now left].
  apply Ascii.eqb_eq in Hx; subst x. right.
  exists (fst (Str.span Str.is_digit rest)). split; [reflexivity|].
  apply span_forallb.
Qed.

Lemma search_price_reads (s m : string) :
  Str.existsb (fun c => Ascii.eqb c ",") s = false ->
  Identity.search_price s = Some m ->
  Float.of_string m <> None
  /\ Str.existsb (fun c => Ascii.eqb c ",") m = false.
Proof.
  induction s as [|c s IH]; [discriminate|].
  intros Hfree. cbn [Identity.search_price].
  destruct (Identity.is_digit_or_comma c) eqn:Hc.
  - intros H; injection H as <-.
    assert (Hd : Str.is_digit c = true).
    { unfold Identity.is_digit_or_comma in Hc. cbn [Str.existsb] in Hfree.
      apply orb_false_iff in Hfree as [Hcomma _].
      now rewrite Hcomma, orb_false_r in Hc. }
    split; [now apply match_price_reads|].
    unfold Identity.match_price.
    rewrite (span_digits_without_commas _ Hfree).
    destruct (span_split Str.is_digit (String c s)) as (_ & Hall & _).
    destruct (Str.span Str.is_digit (String c s)) as [run rest].
    cbn [fst snd] in Hall.
    assert (Hdig : forall d, Str.forallb Str.is_digit d = true ->
              Str.existsb (fun c => Ascii.eqb c ",") d = false).
    { clear. induction d as [|x d IH]; [reflexivity|].
      cbn [Str.forallb Str.existsb]. intros H.
      apply andb_true_iff in H as [Hx Hd]. rewrite (IH Hd), orb_false_r.
      destruct x as [[] [] [] [] [] [] [] []]; vm_compute in Hx |- *; congruence. }
    assert (Happ : forall a b,
              Str.existsb (fun c => Ascii.eqb c ",") a = false ->
              Str.existsb (fun c => Ascii.eqb c ",") b = false ->
              Str.existsb (fun c => Ascii.eqb c ",") (a ++ b) = false).
    { clear. induction a as [|x a IH]; intros b Ha Hb; [exact Hb|].
      cbn [String.append Str.existsb] in *.
      apply orb_false_iff in Ha as [Hx Ha]. now rewrite Hx, (IH b Ha Hb). }
    apply Happ; [now apply Hdig|].
    destruct rest as [|x rest]; [reflexivity|].
    destruct (Ascii.eqb x ".") eqn:Hx; [|reflexivity].
    apply Ascii.eqb_eq in Hx; subst x. cbn [Str.existsb Ascii.eqb Bool.eqb orb].
    apply Hdig, span_forallb.
  - cbn [Str.existsb] in Hfree. apply orb_false_iff in Hfree as [_ Hfree].
    now apply IH.
Qed.

(** X23.  The price is either empty or a decimal literal without commas
    that [float] reads: the commas of the amount are dropped before the first
    run of digits, with at most one decimal point after it, is taken. *)
Theorem extract_price_reads (price_elem : option Identity.PriceElem) :
  Identity.extract_price price_elem = ""
  \/ (Float.of_string (Identity.extract_price price_elem) <> None
      /\ Str.existsb (fun c => Ascii.eqb c ",")
                     (Identity.extract_price price_elem) = false).
Proof.
  unfold Identity.extract_price.
  destruct price_elem as [elem|]; [|now left].
  destruct (match Identity.ins_bdi elem with
            | Some bdi => bdi
            | None => Identity.first_bdi elem
            end) as [text|]; [|now left].
  destruct (Identity.search_price (Identity.remove_commas text)) as [m|] eqn:Hm;
    [|now left].
  right. exact (search_price_reads _ _ (remove_commas_free text) Hm).
Qed.
